(** * Governance decision resolver: a shallow embedding and its properties

    The development follows the Python sources
    - [nebulagraph_client.py]  ([check_process_legality]),
    - [policy_engine.py]       ([check_policy_constraints]),
    - [approval_engine.py]     ([get_approval_requirement]),
    - [decision_resolver.py]   ([governance_decision]).

    Python dictionaries are finite maps from strings to dynamically typed
    values, exceptions are an explicit error result, and every call that
    leaves the function under study (to a collaborator, or to the vector
    store) is an event of a small free monad, so that the order, the
    arguments and the number of such calls can be stated. *)

From stdpp Require Import base gmap strings list.
From Stdlib Require Import ZArith.

Set Warnings "-register-all".
Open Scope string_scope.

(** ** Python values *)

Module Py.

Inductive value : Type :=
| VNone
| VBool (b : bool)
| VInt (n : Z)
| VStr (s : string)
| VList (l : list value)
| VDict (d : gmap string value).

(** The exceptions the modelled code can raise itself, and [External] for
    whatever a collaborator or the store raises (a connection error, a
    [StoreUnavailable], ...). *)
Inductive exn : Type :=
| KeyError (key : string)
| TypeError (what : string)
| External (name : string).

Definition result (A : Type) : Type := exn + A.

(** [bool(v)]: the truth value Python gives to [v] in [if v], [not v] and
    [a or b]. *)
Definition truthy (v : value) : bool :=
  match v with
  | VNone => false
  | VBool b => b
  | VInt n => negb (n =? 0)%Z
  | VStr s => negb (String.eqb s "")
  | VList l => match l with [] => false | _ => true end
  | VDict d => negb (Nat.eqb (size d) 0)
  end.

(** [v == "lit"] for a string literal: only a [str] with the same
    characters compares equal to a [str]. *)
Definition eq_str (v : value) (lit : string) : bool :=
  match v with
  | VStr s => String.eqb s lit
  | _ => false
  end.

(** [d[key]] on a dictionary: the value, or [KeyError]. *)
Definition getitem (d : gmap string value) (key : string) : result value :=
  match d !! key with
  | Some x => inr x
  | None => inl (KeyError key)
  end.

(** [v[key]] for a string key, on any value. *)
Definition subscript (v : value) (key : string) : result value :=
  match v with
  | VDict d => getitem d key
  | _ => inl (TypeError "subscript")
  end.

(** What a [set] can hold.  [True == 1] and [False == 0] with equal
    hashes, so a [bool] is stored as its integer; a [list] and a [dict]
    are unhashable. *)
Inductive hashable : Type :=
| HNone
| HInt (n : Z)
| HStr (s : string).

#[export] Instance hashable_eq_dec : EqDecision hashable.
Proof. solve_decision. Defined.

Definition hashable_encode (x : hashable) : unit + Z + string :=
  match x with
  | HNone => inl (inl tt)
  | HInt n => inl (inr n)
  | HStr s => inr s
  end.

Definition hashable_decode (x : unit + Z + string) : hashable :=
  match x with
  | inl (inl _) => HNone
  | inl (inr n) => HInt n
  | inr s => HStr s
  end.

#[export] Instance hashable_countable : Countable hashable.
Proof.
  apply (inj_countable' hashable_encode hashable_decode).
  intros []; reflexivity.
Defined.

(** [hash(v)], as far as set membership can tell. *)
Definition hash_key (v : value) : result hashable :=
  match v with
  | VNone => inr HNone
  | VBool b => inr (HInt (Z.b2z b))
  | VInt n => inr (HInt n)
  | VStr s => inr (HStr s)
  | VList _ => inl (TypeError "unhashable type: 'list'")
  | VDict _ => inl (TypeError "unhashable type: 'dict'")
  end.

(** ["lit" in s] for a set [s] and a string literal. *)
Definition set_contains_str (lit : string) (s : gset hashable) : bool :=
  bool_decide (HStr lit ∈ s).

(** Sequencing of fallible pure steps: the first exception wins. *)
Definition rbind {A B : Type} (r : result A) (k : A → result B) : result B :=
  match r with
  | inl e => inl e
  | inr a => k a
  end.

End Py.

Import Py.

Notation "'try' x ← r ; k" := (rbind r (λ x, k))
  (at level 10, x name, r at level 100, k at level 200,
   format "'try'  x  ←  r ;  '/' k").

(** ** Programs that call out

    A program returns, raises, or issues a call [c : C] and continues with
    the answer of type [R].  There is no constructor that catches an
    exception: the modelled functions contain no [try]. *)

Section Prog.
Context {C R : Type}.

Inductive prog (A : Type) : Type :=
| Ret (a : A)
| Raise (e : exn)
| Call (c : C) (k : R → prog A).

Arguments Ret {A} a.
Arguments Raise {A} e.
Arguments Call {A} c k.

Fixpoint bind {A B : Type} (p : prog A) (f : A → prog B) : prog B :=
  match p with
  | Ret a => f a
  | Raise e => Raise e
  | Call c k => Call c (λ r, bind (k r) f)
  end.

Definition call (c : C) : prog R := Call c Ret.

Definition lift {A : Type} (r : result A) : prog A :=
  match r with
  | inl e => Raise e
  | inr a => Ret a
  end.

(** A handler answers a call in a world [W], possibly changing it, and
    may fail. *)
Definition handler (W : Type) : Type := C → W → result R * W.

(** What one run leaves behind: the result, the final world, and every
    call that was issued with the answer it got, oldest first. *)
Record outcome (W A : Type) : Type := Outcome {
  returned : result A;
  world : W;
  calls : list (C * result R)
}.

Arguments Outcome {W A}.
Arguments returned {W A}.
Arguments world {W A}.
Arguments calls {W A}.

Fixpoint run {W A : Type} (h : handler W) (p : prog A) (w : W)
  : outcome W A :=
  match p with
  | Ret a => Outcome (inr a) w []
  | Raise e => Outcome (inl e) w []
  | Call c k =>
      match h c w with
      | (inl e, w') => Outcome (inl e) w' [(c, inl e)]
      | (inr r, w') =>
          let o := run h (k r) w' in
          Outcome (returned o) (world o) ((c, inr r) :: calls o)
      end
  end.
End Prog.

Arguments prog : clear implicits.
Arguments Ret {C R A} a.
Arguments Raise {C R A} e.
Arguments Call {C R A} c k.
Arguments handler : clear implicits.
Arguments outcome : clear implicits.
Arguments Outcome {C R W A}.
Arguments returned {C R W A}.
Arguments world {C R W A}.
Arguments calls {C R W A}.

Notation "'do' x ← p ; k" := (bind p (λ x, k))
  (at level 10, x name, p at level 100, k at level 200,
   format "'do'  x  ←  p ;  '/' k").

(** ** The vector store, as the engines see it

    [Filter.by_property(p).equal(v)], [.contains_any(vs)] and [&] build a
    filter; [collection.query.fetch_objects(filters=f)] is the one call
    that leaves the engines, and its answer is [result.objects]. *)

Inductive Filter : Type :=
| by_property_equal (name : string) (val : string)
| by_property_contains_any (name : string) (vals : list string)
| Filter_and (f g : Filter).

Infix "&&&" := Filter_and (at level 40, left associativity).

Record object : Type := Object { properties : gmap string value }.

Inductive store_call : Type :=
| fetch_objects (collection : string) (filters : Filter).

(** ** policy_engine.py *)

(** The loop of [check_policy_constraints]: each object adds its severity
    to the set and appends its text to the list. *)
Fixpoint collect_policies (objects : list object)
    (severities : gset hashable) (policies : list value)
  : result (gset hashable * list value) :=
  match objects with
  | [] => inr (severities, policies)
  | obj :: rest =>
      try severity ← getitem (properties obj) "severity";
      try key ← hash_key severity;
      try policy_text ← getitem (properties obj) "policy_text";
      collect_policies rest ({[key]} ∪ severities) (policies ++ [policy_text])
  end.

Definition check_policy_constraints (workflow role : string)
  : prog store_call (list object) value :=
  let filters :=
    by_property_equal "domain" "HR"
    &&& by_property_equal "applies_to" workflow
    &&& by_property_contains_any "roles" [role] in
  do objects ← call (fetch_objects "HRPolicy" filters);
  match objects with
  | [] => Ret (VDict {[ "severity" := VStr "ALLOW"; "policies" := VList [] ]})
  | _ :: _ =>
      do collected ← lift (collect_policies objects ∅ []);
      let '(severities, policies) := collected in
      if set_contains_str "BLOCK" severities then
        Ret (VDict {[ "severity" := VStr "BLOCK";
                      "policies" := VList policies ]})
      else if set_contains_str "REQUIRE_APPROVAL" severities then
        Ret (VDict {[ "severity" := VStr "REQUIRE_APPROVAL";
                      "policies" := VList policies ]})
      else
        Ret (VDict {[ "severity" := VStr "ALLOW";
                      "policies" := VList policies ]})
  end.

(** ** approval_engine.py *)

Definition get_approval_requirement (domain workflow action role : string)
  : prog store_call (list object) value :=
  let filters :=
    by_property_equal "domain" domain
    &&& by_property_equal "workflow" workflow
    &&& by_property_equal "action" action
    &&& by_property_equal "requested_by_role" role in
  do objects ← call (fetch_objects "ApprovalPolicy" filters);
  match objects with
  | [] => Ret (VDict {[ "approval_required" := VBool false;
                        "auto_approve" := VBool true ]})
  | first :: _ =>
      let policy := properties first in
      do approver_roles ← lift (getitem policy "approver_roles");
      do approval_level ← lift (getitem policy "approval_level");
      do auto_approve ← lift (getitem policy "auto_approve");
      do escalation_role ← lift (getitem policy "escalation_role");
      Ret (VDict {[ "approval_required" := VBool true;
                    "approver_roles" := approver_roles;
                    "approval_level" := approval_level;
                    "auto_approve" := auto_approve;
                    "escalation_role" := escalation_role ]})
  end.

(** ** nebulagraph_client.py *)

Definition check_process_legality (current_state next_state role : string)
  : value :=
  VDict {[ "valid" := VBool true;
           "approval_required" := VBool false;
           "reason" := VStr "Valid HR workflow transition" ]}.

(** ** decision_resolver.py *)

(** The three functions [decision_resolver] imports; a call records the
    arguments it was given, keyword arguments under their names. *)
Inductive collaborator_call : Type :=
| CallProcessLegality (current_state next_state role : string)
| CallPolicyConstraints (workflow role : string)
| CallApprovalRequirement (domain workflow action role : string).

Definition governance_decision (current_state next_state role workflow : string)
  : prog collaborator_call value value :=
  (* 1. Process legality *)
  do process ← call (CallProcessLegality current_state next_state role);
  do valid ← lift (subscript process "valid");
  if negb (truthy valid) then
    do reason ← lift (subscript process "reason");
    Ret (VDict {[ "verdict" := VStr "BLOCKED";
                  "reason" := reason;
                  "authority" := VStr "NebulaGraph" ]})
  else
  (* 2. Policy constraints *)
  do policy ← call (CallPolicyConstraints workflow role);
  do severity ← lift (subscript policy "severity");
  if eq_str severity "BLOCK" then
    do policies ← lift (subscript policy "policies");
    Ret (VDict {[ "verdict" := VStr "BLOCKED";
                  "reason" := policies;
                  "authority" := VStr "Weaviate" ]})
  else
  (* 3. Approval handling: [a or b] looks at [b] only when [a] is false *)
  do severity ← lift (subscript policy "severity");
  do gated ←
    (if eq_str severity "REQUIRE_APPROVAL" then Ret true
     else do approval_required ← lift (subscript process "approval_required");
          Ret (truthy approval_required));
  if (gated : bool) then
    do approval ← call (CallApprovalRequirement "HR" workflow next_state role);
    do policies ← lift (subscript policy "policies");
    Ret (VDict {[ "verdict" := VStr "NEEDS_APPROVAL";
                  "reason" := policies;
                  "approval" := approval;
                  "authority" := VStr "GovernanceLayer" ]})
  else
  (* 4. Fully allowed *)
  Ret (VDict {[ "verdict" := VStr "ALLOWED";
                "reason" := VStr "Process and policy compliant";
                "authority" := VStr "GovernanceLayer" ]}).

(** The spec names the authorities [ProcessAuthority], [PolicyAuthority]
    and [GovernanceLayer]; these are the tags the code writes for them. *)
Definition ProcessAuthority : value := VStr "NebulaGraph".
Definition PolicyAuthority : value := VStr "Weaviate".
Definition GovernanceLayer : value := VStr "GovernanceLayer".

(** ** Putting the modules together

    The resolver's three callees, with the two engines run against a
    store handler.  The legality check is a parameter: the repository's
    own is the constant [check_process_legality]. *)

Definition collaborators {W : Type}
    (legality : string → string → string → W → result value * W)
    (store : handler store_call (list object) W)
  : handler collaborator_call value W :=
  λ c w,
    match c with
    | CallProcessLegality current_state next_state role =>
        legality current_state next_state role w
    | CallPolicyConstraints workflow role =>
        let o := run store (check_policy_constraints workflow role) w in
        (returned o, world o)
    | CallApprovalRequirement domain workflow action role =>
        let o :=
          run store (get_approval_requirement domain workflow action role) w in
        (returned o, world o)
    end.

(** ** A reading of the store

    The store is a service outside the repository.  [Filter_matches] gives
    a filter its documented reading on one object: [equal] holds when the
    stored property is that very string, [contains_any] when the stored
    list holds one of the given strings.  A store that is up answers with
    the matching objects of the collection, in stored order; one that is
    down raises. *)

Fixpoint Filter_matches (f : Filter) (o : object) : bool :=
  match f with
  | by_property_equal name val =>
      match properties o !! name with
      | Some v => eq_str v val
      | None => false
      end
  | by_property_contains_any name vals =>
      match properties o !! name with
      | Some (VList l) => existsb (λ v, existsb (eq_str v) vals) l
      | _ => false
      end
  | Filter_and f g => Filter_matches f o && Filter_matches g o
  end.

Record weaviate : Type := Weaviate {
  reachable : bool;
  collections : gmap string (list object)
}.

Definition weaviate_fetch : handler store_call (list object) weaviate :=
  λ c w,
    match c with
    | fetch_objects collection filters =>
        if reachable w then
          match collections w !! collection with
          | Some objs => (inr (List.filter (Filter_matches filters) objs), w)
          | None => (inl (External "UnexpectedStatusCodeError"), w)
          end
        else (inl (External "StoreUnavailable"), w)
    end.

(** The repository as it stands: the constant legality check and the two
    engines over the store. *)
Definition repository : handler collaborator_call value weaviate :=
  collaborators
    (λ current_state next_state role w,
       (inr (check_process_legality current_state next_state role), w))
    weaviate_fetch.

(** The record [setup_approval_policy.py] inserts. *)
Definition hiring_offer_approval : object :=
  Object {[ "domain" := VStr "HR";
            "workflow" := VStr "Hiring";
            "action" := VStr "OfferAccepted";
            "requested_by_role" := VStr "HR_EXECUTIVE";
            "approver_roles" := VList [VStr "HR_MANAGER"];
            "approval_level" := VInt 1;
            "auto_approve" := VBool false;
            "escalation_role" := VStr "HR_DIRECTOR";
            "source" := VStr "HR Approval SOP v1.0" ]}.

(** ** The data contracts of the collaborators' answers

    A [ProcessLegalityResult] has a non-empty [reason] whenever [valid] is
    false; a [PolicyConstraintResult] with no [policies] has severity
    [ALLOW]. *)

Definition ProcessLegalityResult_inv (process : value) : Prop :=
  ∃ (valid approval_required : bool) (reason : string),
    subscript process "valid" = inr (VBool valid)
    ∧ subscript process "approval_required" = inr (VBool approval_required)
    ∧ subscript process "reason" = inr (VStr reason)
    ∧ (valid = false → reason ≠ "").

Definition PolicyConstraintResult_inv (policy : value) : Prop :=
  ∃ (severity : value) (policies : list value),
    subscript policy "severity" = inr severity
    ∧ subscript policy "policies" = inr (VList policies)
    ∧ (policies = [] → severity = VStr "ALLOW").

Definition response_ok (entry : collaborator_call * result value) : Prop :=
  match entry with
  | (CallProcessLegality _ _ _, inr process) =>
      ProcessLegalityResult_inv process
  | (CallPolicyConstraints _ _, inr policy) =>
      PolicyConstraintResult_inv policy
  | _ => True
  end.

(** A reason a reader can act on: a non-empty text, or a non-empty list. *)
Definition non_empty (reason : value) : Prop :=
  match reason with
  | VStr s => s ≠ ""
  | VList l => l ≠ []
  | _ => False
  end.

(** Two handlers whose answers to a call are the same whatever the worlds
    they are asked in: collaborators whose state does not change what
    they say. *)
Definition same_answers {C R W1 W2 : Type}
    (h1 : handler C R W1) (h2 : handler C R W2) : Prop :=
  ∀ c w1 w2, (h1 c w1).1 = (h2 c w2).1.

(** ** Collaborators used to exercise the resolver *)

Definition legality_result (valid approval_required : bool) (reason : string)
  : value :=
  VDict {[ "valid" := VBool valid;
           "approval_required" := VBool approval_required;
           "reason" := VStr reason ]}.

Definition policy_result (severity : string) (policies : list value) : value :=
  VDict {[ "severity" := VStr severity; "policies" := VList policies ]}.

Definition no_approval : value :=
  VDict {[ "approval_required" := VBool false; "auto_approve" := VBool true ]}.

(** Collaborators that answer with fixed values and count their calls. *)
Definition fixed (process policy approval : result value)
  : handler collaborator_call value nat :=
  λ c n,
    match c with
    | CallProcessLegality _ _ _ => (process, S n)
    | CallPolicyConstraints _ _ => (policy, S n)
    | CallApprovalRequirement _ _ _ _ => (approval, S n)
    end.

(** ** Matched records *)

(** A policy record as the reduction needs it: a severity that can go
    into a set (a string, for the records of the spec), and a text. *)
Definition policy_record (o : object) : Prop :=
  ∃ severity key text,
    properties o !! "severity" = Some severity
    ∧ hash_key severity = inr key
    ∧ properties o !! "policy_text" = Some text.

(** Some record of the list has this severity. *)
Definition has_severity (lit : string) (objects : list object) : Prop :=
  Exists (λ o, properties o !! "severity" = Some (VStr lit)) objects.

(** The texts of the records, one for one and in the same order. *)
Definition policy_texts (objects : list object) (texts : list value) : Prop :=
  Forall2 (λ o text, properties o !! "policy_text" = Some text) objects texts.

(** Two records to exercise the reduction. *)
Definition policy_allow : object :=
  Object {[ "severity" := VStr "ALLOW"; "policy_text" := VStr "Offers are logged" ]}.
Definition policy_block : object :=
  Object {[ "severity" := VStr "BLOCK"; "policy_text" := VStr "Hiring freeze" ]}.

(** A store that answers every query with the same objects. *)
Definition canned (objects : list object)
  : handler store_call (list object) unit :=
  λ _ w, (inr objects, w).

(** The store of the scenario: no HR policy, and the approval record of
    [setup_approval_policy.py]; and the requirement that record yields. *)
Definition store_without_policy : weaviate :=
  Weaviate true {[ "HRPolicy" := [];
                   "ApprovalPolicy" := [hiring_offer_approval] ]}.

Definition hiring_offer_requirement : value :=
  VDict {[ "approval_required" := VBool true;
           "approver_roles" := VList [VStr "HR_MANAGER"];
           "approval_level" := VInt 1;
           "auto_approve" := VBool false;
           "escalation_role" := VStr "HR_DIRECTOR" ]}.

(** The query [get_approval_requirement] sends for the request of
    [test_approval_engine.py]. *)
Definition hiring_offer_query : Filter :=
  by_property_equal "domain" "HR"
  &&& by_property_equal "workflow" "Hiring"
  &&& by_property_equal "action" "OfferAccepted"
  &&& by_property_equal "requested_by_role" "HR_EXECUTIVE".

(** ** Reading a store answer

    What the policy evaluator is expected to make of the records it got,
    written as plain functions of the list, to compare with what the
    code computes. *)

(** The record's severity is this very string. *)
Definition severity_is (lit : string) (o : object) : bool :=
  match properties o !! "severity" with
  | Some v => eq_str v lit
  | None => false
  end.

(** The strongest severity among the records. *)
Definition strongest_severity (objects : list object) : string :=
  if existsb (severity_is "BLOCK") objects then "BLOCK"
  else if existsb (severity_is "REQUIRE_APPROVAL") objects
       then "REQUIRE_APPROVAL"
       else "ALLOW".

(** The texts of the records, in order. *)
Definition texts_of (objects : list object) : list value :=
  omap (λ o, properties o !! "policy_text") objects.

(** The place of a severity in the order ALLOW < REQUIRE_APPROVAL < BLOCK. *)
Definition severity_rank (severity : string) : nat :=
  if String.eqb severity "BLOCK" then 2
  else if String.eqb severity "REQUIRE_APPROVAL" then 1
  else 0.

(** The first of the keys that the dictionary lacks. *)
Fixpoint first_missing (keys : list string) (d : gmap string value)
  : option string :=
  match keys with
  | [] => None
  | key :: rest =>
      match d !! key with
      | Some _ => first_missing rest d
      | None => Some key
      end
  end.

(** A policy that asks for approval, and one in another spelling. *)
Definition policy_require_approval : object :=
  Object {[ "severity" := VStr "REQUIRE_APPROVAL";
            "policy_text" := VStr "Offers need sign-off" ]}.
Definition policy_without_text : object :=
  Object {[ "severity" := VStr "BLOCK" ]}.

(** The repository's legality check as a collaborator: it answers with
    [check_process_legality] and leaves the world alone. *)
Definition stub_legality {W : Type}
    (current_state next_state role : string) (w : W) : result value * W :=
  (inr (check_process_legality current_state next_state role), w).

(** A store that is asked for policies first and approval records next,
    and counts the queries. *)
Definition scripted (policies approvals : result (list object))
  : handler store_call (list object) nat :=
  λ c n,
    match c with
    | fetch_objects collection _ =>
        if String.eqb collection "HRPolicy" then (policies, S n)
        else (approvals, S n)
    end.

(** ** weaviate_client.py

    The module keeps one global, [_client]: [None], or the client made by
    [connect_to_local(skip_init_checks=True)].  The two functions take the
    global as it is and give it back as they leave it; the calls that
    leave the module are the connection and [client.close()], whose
    answer is not looked at.  Each function assigns the global once,
    after its only call: when that call raises, the global is as before. *)

Inductive client_call : Type :=
| connect_to_local (skip_init_checks : bool)
| client_close (client : nat).

Definition get_client (_client : option nat)
  : prog client_call nat (nat * option nat) :=
  match _client with
  | None =>
      do client ← call (connect_to_local true);
      Ret (client, Some client)
  | Some client => Ret (client, Some client)
  end.

Definition close_client (_client : option nat)
  : prog client_call nat (option nat) :=
  match _client with
  | Some client =>
      do closed ← call (client_close client);
      Ret None
  | None => Ret None
  end.

(** A caller's use of the module: any sequence of the two functions, as
    the engines and the scripts make them; an exception ends it. *)
Inductive client_op : Type := GetClient | CloseClient.

Fixpoint session (ops : list client_op) (_client : option nat)
  : prog client_call nat (option nat) :=
  match ops with
  | [] => Ret _client
  | GetClient :: rest =>
      do got ← get_client _client;
      session rest got.2
  | CloseClient :: rest =>
      do left ← close_client _client;
      session rest left
  end.

(** A log of connections and closings that starts with [open] as the
    live client and ends with [final]: a connection is made only when
    none is live, with the initial checks skipped; a closing is that of
    the live client; a call that failed changes nothing, and nothing
    follows it. *)
Fixpoint bracketed (open : option nat)
    (log : list (client_call * result nat)) (final : option nat) : Prop :=
  match log with
  | [] => open = final
  | (connect_to_local skip, inr client) :: rest =>
      open = None ∧ skip = true ∧ bracketed (Some client) rest final
  | (client_close client, inr _) :: rest =>
      open = Some client ∧ bracketed None rest final
  | (connect_to_local skip, inl _) :: rest =>
      open = None ∧ skip = true ∧ rest = [] ∧ final = None
  | (client_close client, inl _) :: rest =>
      open = Some client ∧ rest = [] ∧ final = Some client
  end.

(** A connection service that hands out fresh numbers and never fails;
    its world is the next number. *)
Definition numbering : handler client_call nat nat :=
  λ c n,
    match c with
    | connect_to_local _ => (inr n, S n)
    | client_close _ => (inr 0, n)
    end.

(** ** weaviate_client.py, with the global as a store

    Above, the global went in and came out through the functions' values,
    so that a run that raises leaves no global to look at.  Here the
    module's global is a store of its own: a statement reads it, writes
    it, calls out, or returns, in the order of the source, and a run
    gives the global as it stands at the end, also when a call raised.
    [get_client] tests [_client is None], assigns after
    [connect_to_local] has returned, and returns what the global then
    holds; [close_client] tests [_client], calls [close()] on it, and
    only then assigns [None]. *)

Module weaviate_client.

Inductive stmt (A : Type) : Type :=
| Return (a : A)
| CallOut (c : client_call) (k : nat → stmt A)
| ReadGlobal (k : option nat → stmt A)
| WriteGlobal (_client : option nat) (k : stmt A).

Arguments Return {A} a.
Arguments CallOut {A} c k.
Arguments ReadGlobal {A} k.
Arguments WriteGlobal {A} _client k.

Fixpoint seq {A B : Type} (p : stmt A) (f : A → stmt B) : stmt B :=
  match p with
  | Return a => f a
  | CallOut c k => CallOut c (λ r, seq (k r) f)
  | ReadGlobal k => ReadGlobal (λ g, seq (k g) f)
  | WriteGlobal g k => WriteGlobal g (seq k f)
  end.

(** What a run leaves: the value or the exception, the global, the world
    of the connection service, and the calls made with their answers. *)
Record execution (W A : Type) : Type := Execution {
  answer : result A;
  global : option nat;
  outside : W;
  log : list (client_call * result nat)
}.

Arguments Execution {W A}.
Arguments answer {W A}.
Arguments global {W A}.
Arguments outside {W A}.
Arguments log {W A}.

Fixpoint exec {W A : Type} (h : handler client_call nat W) (p : stmt A)
    (_client : option nat) (w : W) : execution W A :=
  match p with
  | Return a => Execution (inr a) _client w []
  | CallOut c k =>
      match h c w with
      | (inl e, w') => Execution (inl e) _client w' [(c, inl e)]
      | (inr r, w') =>
          let o := exec h (k r) _client w' in
          Execution (answer o) (global o) (outside o) ((c, inr r) :: log o)
      end
  | ReadGlobal k => exec h (k _client) _client w
  | WriteGlobal g k => exec h k g w
  end.

Definition get_client : stmt (option nat) :=
  ReadGlobal (λ _client,
    match _client with
    | None =>
        CallOut (connect_to_local true) (λ client,
        WriteGlobal (Some client)
        (ReadGlobal Return))
    | Some _ => ReadGlobal Return
    end).

Definition close_client : stmt unit :=
  ReadGlobal (λ _client,
    match _client with
    | Some client =>
        CallOut (client_close client) (λ closed,
        WriteGlobal None
        (Return tt))
    | None => Return tt
    end).

(** A caller's use of the module: any sequence of the two functions; an
    exception ends it. *)
Fixpoint session (ops : list client_op) : stmt unit :=
  match ops with
  | [] => Return tt
  | GetClient :: rest => seq get_client (λ _, session rest)
  | CloseClient :: rest => seq close_client (λ _, session rest)
  end.

End weaviate_client.

(** A connection service whose [close()] always fails. *)
Definition stuck_close : handler client_call nat nat :=
  λ c n,
    match c with
    | connect_to_local _ => (inr n, S n)
    | client_close _ => (inl (External "WeaviateClosedClientError"), n)
    end.

(** ** governance_node.py

    [state] is the caller's dictionary; the four request fields are read
    in the order of the keyword arguments, before the resolver is called.
    The resolver is modelled on [str] arguments, the only ones the
    repository passes: [str_arg] is where the model stops on a field of
    another type, which Python would hand on as it is.  The result is the
    content of the same dictionary after the assignment. *)

Definition str_arg (v : value) : result string :=
  match v with
  | VStr s => inr s
  | _ => inl (TypeError "request field is not a str")
  end.

Definition governance_node (state : gmap string value)
  : prog collaborator_call value (gmap string value) :=
  do current_state ← lift (getitem state "current_state");
  do next_state ← lift (getitem state "next_state");
  do role ← lift (getitem state "role");
  do workflow ← lift (getitem state "workflow");
  do current_state ← lift (str_arg current_state);
  do next_state ← lift (str_arg next_state);
  do role ← lift (str_arg role);
  do workflow ← lift (str_arg workflow);
  do decision ← governance_decision current_state next_state role workflow;
  Ret (<["governance_verdict" := decision]> state).

(** The state of the docstring of [governance_node]. *)
Definition offer_state : gmap string value :=
  {[ "current_state" := VStr "OfferMade";
     "next_state" := VStr "OfferAccepted";
     "role" := VStr "HR_EXECUTIVE";
     "workflow" := VStr "Hiring" ]}.

(** ** Requests and collaborators used to exercise the further properties *)

(** The request of [test_governance.py]. *)
Definition offer_request : prog collaborator_call value value :=
  governance_decision "OfferMade" "OfferAccepted" "HR_EXECUTIVE" "Hiring".

Definition offer_legal : value :=
  legality_result true false "Valid HR workflow transition".

Definition not_consulted : result value := inl (External "not consulted").

(** The three verdicts, on that request. *)
Definition allowed_verdict : value :=
  VDict {[ "verdict" := VStr "ALLOWED";
           "reason" := VStr "Process and policy compliant";
           "authority" := VStr "GovernanceLayer" ]}.

Definition freeze_verdict : value :=
  VDict {[ "verdict" := VStr "BLOCKED";
           "reason" := VList [VStr "Hiring freeze"];
           "authority" := VStr "Weaviate" ]}.

Definition sign_off_verdict : value :=
  VDict {[ "verdict" := VStr "NEEDS_APPROVAL";
           "reason" := VList [VStr "Offers need sign-off"];
           "approval" := no_approval;
           "authority" := VStr "GovernanceLayer" ]}.

(** An approval record that lacks its escalation role. *)
Definition approval_without_escalation : object :=
  Object {[ "approver_roles" := VList [VStr "HR_MANAGER"];
            "approval_level" := VInt 1;
            "auto_approve" := VBool false ]}.

(** * Properties *)

(** ** Running programs *)

Lemma run_same_answers {C R W1 W2 A : Type}
    (h1 : handler C R W1) (h2 : handler C R W2) (p : prog C R A) :
  same_answers h1 h2 →
  ∀ w1 w2,
    returned (run h1 p w1) = returned (run h2 p w2)
    ∧ calls (run h1 p w1) = calls (run h2 p w2).
Proof.
  intros Hsame. induction p as [a | e | c k IH]; intros w1 w2; cbn.
  - split; reflexivity.
  - split; reflexivity.
  - specialize (Hsame c w1 w2).
    destruct (h1 c w1) as [[e1 | r1] w1'], (h2 c w2) as [[e2 | r2] w2'];
      cbn in Hsame; try discriminate.
    + injection Hsame as ->. split; reflexivity.
    + injection Hsame as ->. cbn.
      destruct (IH r2 w1' w2') as [-> ->]. split; reflexivity.
Qed.

(** A call that failed was the last one, and its exception is the result. *)
Lemma run_failed_call {C R W A : Type}
    (h : handler C R W) (p : prog C R A) :
  ∀ w c e,
    (c, inl e) ∈ calls (run h p w) → returned (run h p w) = inl e.
Proof.
  induction p as [a | e' | c' k IH]; intros w c e; cbn.
  - intros Hin. inversion Hin.
  - intros Hin. inversion Hin.
  - destruct (h c' w) as [[e1 | r1] w']; cbn.
    + intros Hin. apply list_elem_of_singleton in Hin. congruence.
    + intros Hin. apply elem_of_cons in Hin as [Heq | Hin].
      * discriminate.
      * eapply IH, Hin.
Qed.

(** The answers received decide a run: two runs of one program in which
    the calls are answered alike, one after the other, make the same
    calls and end alike, whatever the handlers and their worlds. *)
Lemma run_answers_determine {C R W1 W2 A : Type}
    (h1 : handler C R W1) (h2 : handler C R W2) (p : prog C R A) :
  ∀ w1 w2,
    map snd (calls (run h1 p w1)) = map snd (calls (run h2 p w2)) →
    returned (run h1 p w1) = returned (run h2 p w2)
    ∧ calls (run h1 p w1) = calls (run h2 p w2).
Proof.
  induction p as [a | e | c k IH]; intros w1 w2; cbn.
  - split; reflexivity.
  - split; reflexivity.
  - destruct (h1 c w1) as [[e1 | r1] w1'], (h2 c w2) as [[e2 | r2] w2'];
      cbn; intros Hanswers; try discriminate.
    + injection Hanswers as ->. split; reflexivity.
    + injection Hanswers as -> Hrest.
      destruct (IH r2 w1' w2' Hrest) as [-> ->]. split; reflexivity.
Qed.

(** ** The resolver, rule by rule *)

Section Resolver.
Context {W : Type} (h : handler collaborator_call value W).
Variables current_state next_state role workflow : string.

Local Abbreviation resolve :=
  (governance_decision current_state next_state role workflow).

(** C1.  When the legality check answers [valid == False], the verdict
    is BLOCKED, its reason is the legality check's reason, its authority
    is the process authority (tag [NebulaGraph]), and the legality check
    is the only call of the evaluation: neither the policy evaluator
    nor the approval resolver is invoked. *)
Theorem governance_decision_illegal (w w1 : W) (process reason : value) :
  h (CallProcessLegality current_state next_state role) w
    = (inr process, w1) →
  subscript process "valid" = inr (VBool false) →
  subscript process "reason" = inr reason →
  returned (run h resolve w)
    = inr (VDict {[ "verdict" := VStr "BLOCKED";
                    "reason" := reason;
                    "authority" := ProcessAuthority ]})
  ∧ calls (run h resolve w)
    = [(CallProcessLegality current_state next_state role, inr process)].
Proof.
  intros Hcall Hvalid Hreason. cbn.
  rewrite Hcall. cbn. rewrite Hvalid. cbn. rewrite Hreason. cbn.
  split; reflexivity.
Qed.

(** C2.  When the transition is legal and the policy evaluator answers
    severity BLOCK, the verdict is BLOCKED, its reason is the evaluator's
    whole [policies] list and its authority is the policy authority (tag
    [Weaviate]). *)
Theorem governance_decision_policy_block
    (w w1 w2 : W) (process policy policies : value) :
  h (CallProcessLegality current_state next_state role) w
    = (inr process, w1) →
  subscript process "valid" = inr (VBool true) →
  h (CallPolicyConstraints workflow role) w1 = (inr policy, w2) →
  subscript policy "severity" = inr (VStr "BLOCK") →
  subscript policy "policies" = inr policies →
  returned (run h resolve w)
    = inr (VDict {[ "verdict" := VStr "BLOCKED";
                    "reason" := policies;
                    "authority" := PolicyAuthority ]}).
Proof.
  intros Hlegal Hvalid Hpolicy Hseverity Hpolicies. cbn.
  rewrite Hlegal. cbn. rewrite Hvalid. cbn.
  rewrite Hpolicy. cbn. rewrite Hseverity. cbn. rewrite Hpolicies.
  reflexivity.
Qed.

(** C3.  When the transition is legal, the severity is not BLOCK, and
    either the severity is REQUIRE_APPROVAL or the legality check asks
    for approval, the approval resolver is called with domain ["HR"],
    the request's workflow, the request's [next_state] as the action and
    the request's role; the verdict is NEEDS_APPROVAL, with the
    [policies] list as reason, the resolver's answer under [approval],
    and authority [GovernanceLayer]. *)
Theorem governance_decision_needs_approval
    (w w1 w2 w3 : W) (process policy severity policies approval : value) :
  h (CallProcessLegality current_state next_state role) w
    = (inr process, w1) →
  subscript process "valid" = inr (VBool true) →
  h (CallPolicyConstraints workflow role) w1 = (inr policy, w2) →
  subscript policy "severity" = inr severity →
  severity ≠ VStr "BLOCK" →
  severity = VStr "REQUIRE_APPROVAL"
    ∨ subscript process "approval_required" = inr (VBool true) →
  subscript policy "policies" = inr policies →
  h (CallApprovalRequirement "HR" workflow next_state role) w2
    = (inr approval, w3) →
  returned (run h resolve w)
    = inr (VDict {[ "verdict" := VStr "NEEDS_APPROVAL";
                    "reason" := policies;
                    "approval" := approval;
                    "authority" := GovernanceLayer ]})
  ∧ calls (run h resolve w)
    = [(CallProcessLegality current_state next_state role, inr process);
       (CallPolicyConstraints workflow role, inr policy);
       (CallApprovalRequirement "HR" workflow next_state role,
        inr approval)].
Proof.
  intros Hlegal Hvalid Hpolicy Hseverity Hnot Hgate Hpolicies Happroval.
  cbn.
  rewrite Hlegal. cbn. rewrite Hvalid. cbn.
  rewrite Hpolicy. cbn. rewrite Hseverity. cbn.
  assert (eq_str severity "BLOCK" = false) as ->.
  { destruct severity; try reflexivity. cbn.
    apply String.eqb_neq. congruence. }
  cbn.
  destruct Hgate as [-> | Hflag].
  - cbn. rewrite Happroval. cbn. rewrite Hpolicies. cbn.
    split; reflexivity.
  - destruct (eq_str severity "REQUIRE_APPROVAL"); cbn.
    + rewrite Happroval. cbn. rewrite Hpolicies. cbn. split; reflexivity.
    + rewrite Hflag. cbn. rewrite Happroval. cbn. rewrite Hpolicies. cbn.
      split; reflexivity.
Qed.

(** C4.  When the transition is legal without approval and the severity
    is ALLOW, the verdict is ALLOWED, with reason exactly
    ["Process and policy compliant"] and authority [GovernanceLayer]. *)
Theorem governance_decision_allowed (w w1 w2 : W) (process policy : value) :
  h (CallProcessLegality current_state next_state role) w
    = (inr process, w1) →
  subscript process "valid" = inr (VBool true) →
  subscript process "approval_required" = inr (VBool false) →
  h (CallPolicyConstraints workflow role) w1 = (inr policy, w2) →
  subscript policy "severity" = inr (VStr "ALLOW") →
  returned (run h resolve w)
    = inr (VDict {[ "verdict" := VStr "ALLOWED";
                    "reason" := VStr "Process and policy compliant";
                    "authority" := GovernanceLayer ]}).
Proof.
  intros Hlegal Hvalid Hflag Hpolicy Hseverity. cbn.
  rewrite Hlegal. cbn. rewrite Hvalid. cbn.
  rewrite Hpolicy. cbn. rewrite Hseverity. cbn.
  rewrite Hflag. reflexivity.
Qed.
(** C7.  Under the data contracts of the answers (a legality result
    with [valid] false has a non-empty reason, a policy result with no
    policies has severity ALLOW), every BLOCKED verdict carries a
    non-empty reason. *)
Theorem governance_decision_blocked_reason (w : W) (verdict : value) :
  Forall response_ok (calls (run h resolve w)) →
  returned (run h resolve w) = inr verdict →
  subscript verdict "verdict" = inr (VStr "BLOCKED") →
  ∃ reason, subscript verdict "reason" = inr reason ∧ non_empty reason.
Proof.
  cbn.
  destruct (h (CallProcessLegality _ _ _) w) as [[e | process] w1]; cbn;
    [discriminate |].
  intros Hok. apply Forall_cons in Hok as [Hprocess Hok].
  destruct Hprocess as (valid & flag & text & Hvalid & Hflag & Htext & Hne).
  revert Hok. rewrite Hvalid. cbn.
  destruct valid; cbn.
  - destruct (h (CallPolicyConstraints _ _) w1) as [[e | policy] w2]; cbn;
      [discriminate |].
    intros Hok. apply Forall_cons in Hok as [Hpolicy Hok].
    destruct Hpolicy as (severity & policies & Hsev & Hpol & Hempty).
    revert Hok. rewrite Hsev. cbn.
    destruct (eq_str severity "BLOCK") eqn:Hblock; cbn.
    + rewrite Hpol. cbn. intros _ [= <-] _.
      exists (VList policies). split; [reflexivity |].
      cbn. intros ->. rewrite Hempty in Hblock by reflexivity.
      discriminate.
    + destruct (eq_str severity "REQUIRE_APPROVAL"); cbn.
      * destruct (h (CallApprovalRequirement _ _ _ _) w2)
          as [[e | approval] w3]; cbn; [discriminate |].
        rewrite Hpol. cbn. intros _ [= <-] Hverdict.
        vm_compute in Hverdict. discriminate.
      * rewrite Hflag. cbn. destruct flag; cbn.
        -- destruct (h (CallApprovalRequirement _ _ _ _) w2)
             as [[e | approval] w3]; cbn; [discriminate |].
           rewrite Hpol. cbn. intros _ [= <-] Hverdict.
           vm_compute in Hverdict. discriminate.
        -- intros _ [= <-] Hverdict.
           vm_compute in Hverdict. discriminate.
  - rewrite Htext. cbn. intros _ [= <-] _.
    exists (VStr text). split; [reflexivity |].
    cbn. apply Hne. reflexivity.
Qed.

(** C8.  The resolver neither catches nor downgrades a collaborator's
    failure: whichever of its calls fails, the exception is the result
    of the evaluation, unchanged, and no verdict is returned. *)
Theorem governance_decision_propagates
    (w : W) (c : collaborator_call) (e : exn) :
  (c, inl e) ∈ calls (run h resolve w) →
  returned (run h resolve w) = inl e
  ∧ ∀ verdict, returned (run h resolve w) ≠ inr verdict.
Proof.
  intros Hin. apply run_failed_call in Hin. rewrite Hin.
  split; [reflexivity | discriminate].
Qed.
End Resolver.

(** C9.  The verdict is a function of the four inputs and of the answers
    the collaborators give: two evaluations of the same request in which
    the collaborators answer alike, one call after the other, return the
    same thing and make the same calls, whatever the collaborators are,
    with a state of their own or not, and whatever worlds they are in;
    so two consecutive evaluations whose answers did not change. *)
Theorem governance_decision_pure {W1 W2 : Type}
    (h1 : handler collaborator_call value W1)
    (h2 : handler collaborator_call value W2)
    (current_state next_state role workflow : string) (w1 : W1) (w2 : W2) :
  map snd (calls (run h1 (governance_decision current_state next_state role workflow) w1))
  = map snd (calls (run h2 (governance_decision current_state next_state role workflow) w2)) →
  returned (run h1 (governance_decision current_state next_state role workflow) w1)
  = returned (run h2 (governance_decision current_state next_state role workflow) w2)
  ∧ calls (run h1 (governance_decision current_state next_state role workflow) w1)
    = calls (run h2 (governance_decision current_state next_state role workflow) w2).
Proof.
  intros Hanswers. apply run_answers_determine. exact Hanswers.
Qed.

(** ** The policy evaluator *)

(** What the loop computes on well-formed records: every text, in order,
    after the ones already there, and a set that holds a string exactly
    when it did before or some record has it as severity. *)
Lemma collect_policies_spec (objects : list object) :
  Forall policy_record objects →
  ∀ severities policies,
  ∃ severities' texts,
    collect_policies objects severities policies
      = inr (severities', (policies ++ texts)%list)
    ∧ policy_texts objects texts
    ∧ ∀ lit, HStr lit ∈ severities'
        ↔ HStr lit ∈ severities ∨ has_severity lit objects.
Proof.
  unfold policy_texts, has_severity.
  induction 1 as [| o rest (severity & key & text & Hsev & Hkey & Htext) _ IH];
    intros severities policies.
  - exists severities, []. cbn. rewrite app_nil_r.
    split; [reflexivity |]. split; [constructor |].
    intros lit. rewrite Exists_nil. tauto.
  - cbn. unfold getitem. rewrite Hsev. cbn. rewrite Hkey. cbn.
    rewrite Htext. cbn.
    destruct (IH ({[key]} ∪ severities) (policies ++ [text])%list)
      as (severities' & texts & Hrun & Htexts & Hset).
    exists severities', (text :: texts).
    rewrite Hrun, <- app_assoc. split; [reflexivity |].
    split; [constructor; assumption |].
    intros lit. rewrite Hset, Exists_cons, elem_of_union, elem_of_singleton.
    assert (HStr lit = key ↔ properties o !! "severity" = Some (VStr lit))
      as Hiff.
    { rewrite Hsev. destruct severity; cbn in Hkey; split; congruence. }
    tauto.
Qed.

(** C5.  Reduction by precedence BLOCK > REQUIRE_APPROVAL > ALLOW over the
    records the store matched: BLOCK if any record has it, else
    REQUIRE_APPROVAL if any has it, else ALLOW; [policies] holds the text
    of every matched record, in the order the store returned them,
    whichever record decided; no record at all gives ALLOW and []. *)
Theorem check_policy_constraints_precedence {W : Type}
    (h : handler store_call (list object) W) (workflow role : string)
    (w w1 : W) (objects : list object) :
  h (fetch_objects "HRPolicy"
       (by_property_equal "domain" "HR"
        &&& by_property_equal "applies_to" workflow
        &&& by_property_contains_any "roles" [role])) w
    = (inr objects, w1) →
  Forall policy_record objects →
  ∃ severity policies,
    returned (run h (check_policy_constraints workflow role) w)
      = inr (VDict {[ "severity" := VStr severity;
                      "policies" := VList policies ]})
    ∧ policy_texts objects policies
    ∧ (has_severity "BLOCK" objects → severity = "BLOCK")
    ∧ (¬ has_severity "BLOCK" objects →
       has_severity "REQUIRE_APPROVAL" objects →
       severity = "REQUIRE_APPROVAL")
    ∧ (¬ has_severity "BLOCK" objects →
       ¬ has_severity "REQUIRE_APPROVAL" objects →
       severity = "ALLOW")
    ∧ (objects = [] → severity = "ALLOW" ∧ policies = []).
Proof.
  intros Hfetch Hrecords. cbn. rewrite Hfetch. cbn.
  destruct objects as [| o rest].
  - exists "ALLOW", []. cbn.
    split; [reflexivity |]. split; [constructor |].
    unfold has_severity. rewrite !Exists_nil. tauto.
  - destruct (collect_policies_spec (o :: rest) Hrecords ∅ [])
      as (severities & texts & Hrun & Htexts & Hset).
    rewrite Hrun. cbn. unfold set_contains_str.
    pose proof (Hset "BLOCK") as Hblock.
    pose proof (Hset "REQUIRE_APPROVAL") as Happroval.
    rewrite elem_of_empty in Hblock, Happroval.
    repeat case_bool_decide; cbn.
    + exists "BLOCK", texts. intuition congruence.
    + exists "REQUIRE_APPROVAL", texts. intuition congruence.
    + exists "ALLOW", texts. intuition congruence.
Qed.

(** ** The approval resolver *)

(** C6.  The one query sent to the store asks for equality on [domain],
    [workflow], [action] and [requested_by_role], and an object passes it
    exactly when all four properties are the given strings.  No matching
    record gives [{approval_required: False, auto_approve: True}]; one or
    more give [approval_required: True] with the first record's
    [approver_roles], [approval_level], [auto_approve] and
    [escalation_role] as they are stored. *)
Theorem get_approval_requirement_first_match {W : Type}
    (h : handler store_call (list object) W)
    (domain workflow action role : string) (w w1 : W)
    (objects : list object) :
  let filters :=
    by_property_equal "domain" domain
    &&& by_property_equal "workflow" workflow
    &&& by_property_equal "action" action
    &&& by_property_equal "requested_by_role" role in
  h (fetch_objects "ApprovalPolicy" filters) w = (inr objects, w1) →
  calls (run h (get_approval_requirement domain workflow action role) w)
    = [(fetch_objects "ApprovalPolicy" filters, inr objects)]
  ∧ (∀ o, Filter_matches filters o = true
          ↔ properties o !! "domain" = Some (VStr domain)
            ∧ properties o !! "workflow" = Some (VStr workflow)
            ∧ properties o !! "action" = Some (VStr action)
            ∧ properties o !! "requested_by_role" = Some (VStr role))
  ∧ (objects = [] →
     returned (run h (get_approval_requirement domain workflow action role) w)
       = inr (VDict {[ "approval_required" := VBool false;
                       "auto_approve" := VBool true ]}))
  ∧ (∀ first rest approver_roles approval_level auto_approve escalation_role,
       objects = first :: rest →
       properties first !! "approver_roles" = Some approver_roles →
       properties first !! "approval_level" = Some approval_level →
       properties first !! "auto_approve" = Some auto_approve →
       properties first !! "escalation_role" = Some escalation_role →
       returned (run h (get_approval_requirement domain workflow action role) w)
         = inr (VDict {[ "approval_required" := VBool true;
                         "approver_roles" := approver_roles;
                         "approval_level" := approval_level;
                         "auto_approve" := auto_approve;
                         "escalation_role" := escalation_role ]})).
Proof.
  intros filters Hfetch. subst filters. cbn. rewrite Hfetch. cbn.
  split; [| split; [| split]].
  - destruct objects as [| first rest]; cbn; [reflexivity |].
    unfold getitem.
    destruct (properties first !! "approver_roles"); cbn; [| reflexivity].
    destruct (properties first !! "approval_level"); cbn; [| reflexivity].
    destruct (properties first !! "auto_approve"); cbn; [| reflexivity].
    destruct (properties first !! "escalation_role"); cbn; reflexivity.
  - intros o. rewrite !andb_true_iff.
    assert (∀ name val,
      match properties o !! name with
      | Some v => eq_str v val
      | None => false
      end = true ↔ properties o !! name = Some (VStr val)) as Heq.
    { intros name val. destruct (properties o !! name) as [v |].
      - destruct v; cbn; try (split; [discriminate | congruence]).
        rewrite String.eqb_eq. split; congruence.
      - split; discriminate. }
    rewrite !Heq. tauto.
  - intros ->. reflexivity.
  - intros first rest r1 r2 r3 r4 -> H1 H2 H3 H4. cbn. unfold getitem.
    rewrite H1. cbn. rewrite H2. cbn. rewrite H3. cbn. rewrite H4.
    reflexivity.
Qed.

(** ** The resolver over the engines *)

(** C10.  When approval is asked for by the legality check alone and the
    policy evaluator matched no record, the NEEDS_APPROVAL verdict has
    the empty list as its reason: unlike a BLOCKED verdict, it is not
    sure to carry a non-empty one. *)
Theorem governance_decision_approval_without_policy {W : Type}
    (legality : string → string → string → W → result value * W)
    (store : handler store_call (list object) W)
    (current_state next_state role workflow : string)
    (w w1 w2 : W) (process approval : value) :
  legality current_state next_state role w = (inr process, w1) →
  subscript process "valid" = inr (VBool true) →
  subscript process "approval_required" = inr (VBool true) →
  store (fetch_objects "HRPolicy"
           (by_property_equal "domain" "HR"
            &&& by_property_equal "applies_to" workflow
            &&& by_property_contains_any "roles" [role])) w1
    = (inr [], w2) →
  returned (run store (get_approval_requirement "HR" workflow next_state role) w2)
    = inr approval →
  returned (run (collaborators legality store)
              (governance_decision current_state next_state role workflow) w)
    = inr (VDict {[ "verdict" := VStr "NEEDS_APPROVAL";
                    "reason" := VList [];
                    "approval" := approval;
                    "authority" := GovernanceLayer ]})
  ∧ ¬ non_empty (VList []).
Proof.
  intros Hlegal Hvalid Hflag Hfetch Happroval.
  split; [| cbn; congruence].
  cbn -[get_approval_requirement]. rewrite Hlegal.
  cbn -[get_approval_requirement]. rewrite Hvalid.
  cbn -[get_approval_requirement]. rewrite Hfetch.
  cbn -[get_approval_requirement].
  assert (getitem {[ "severity" := VStr "ALLOW"; "policies" := VList [] ]}
            "severity" = inr (VStr "ALLOW")) as -> by reflexivity.
  assert (getitem {[ "severity" := VStr "ALLOW"; "policies" := VList [] ]}
            "policies" = inr (VList [])) as -> by reflexivity.
  cbn -[get_approval_requirement]. rewrite Hflag.
  cbn -[get_approval_requirement]. rewrite Happroval.
  reflexivity.
Qed.

(** * The properties at work *)

Lemma governance_decision_illegal_witness :
  let h := fixed (inr (legality_result false false "No such transition"))
             (inl (External "not consulted")) (inl (External "not consulted")) in
  returned (run h (governance_decision "Applied" "OfferAccepted" "HR_EXECUTIVE" "Hiring") 0)
    = inr (VDict {[ "verdict" := VStr "BLOCKED";
                    "reason" := VStr "No such transition";
                    "authority" := ProcessAuthority ]})
  ∧ calls (run h (governance_decision "Applied" "OfferAccepted" "HR_EXECUTIVE" "Hiring") 0)
    = [(CallProcessLegality "Applied" "OfferAccepted" "HR_EXECUTIVE",
        inr (legality_result false false "No such transition"))].
Proof.
  intros h.
  apply (governance_decision_illegal h "Applied" "OfferAccepted" "HR_EXECUTIVE"
           "Hiring" 0 1 (legality_result false false "No such transition")
           (VStr "No such transition")); reflexivity.
Defined.

Lemma governance_decision_policy_block_witness :
  returned (run (fixed (inr (legality_result true false "Valid HR workflow transition"))
                   (inr (policy_result "BLOCK" [VStr "Hiring freeze"]))
                   (inl (External "not consulted")))
              (governance_decision "OfferMade" "OfferAccepted" "HR_EXECUTIVE" "Hiring") 0)
    = inr (VDict {[ "verdict" := VStr "BLOCKED";
                    "reason" := VList [VStr "Hiring freeze"];
                    "authority" := PolicyAuthority ]}).
Proof.
  apply (governance_decision_policy_block _ "OfferMade" "OfferAccepted"
           "HR_EXECUTIVE" "Hiring" 0 1 2
           (legality_result true false "Valid HR workflow transition")
           (policy_result "BLOCK" [VStr "Hiring freeze"])
           (VList [VStr "Hiring freeze"])); reflexivity.
Defined.

Lemma governance_decision_needs_approval_witness :
  let h := fixed (inr (legality_result true false "Valid HR workflow transition"))
             (inr (policy_result "REQUIRE_APPROVAL" [VStr "Offers need sign-off"]))
             (inr no_approval) in
  returned (run h (governance_decision "OfferMade" "OfferAccepted" "HR_EXECUTIVE" "Hiring") 0)
    = inr (VDict {[ "verdict" := VStr "NEEDS_APPROVAL";
                    "reason" := VList [VStr "Offers need sign-off"];
                    "approval" := no_approval;
                    "authority" := GovernanceLayer ]})
  ∧ calls (run h (governance_decision "OfferMade" "OfferAccepted" "HR_EXECUTIVE" "Hiring") 0)
    = [(CallProcessLegality "OfferMade" "OfferAccepted" "HR_EXECUTIVE",
        inr (legality_result true false "Valid HR workflow transition"));
       (CallPolicyConstraints "Hiring" "HR_EXECUTIVE",
        inr (policy_result "REQUIRE_APPROVAL" [VStr "Offers need sign-off"]));
       (CallApprovalRequirement "HR" "Hiring" "OfferAccepted" "HR_EXECUTIVE",
        inr no_approval)].
Proof.
  intros h.
  apply (governance_decision_needs_approval h "OfferMade" "OfferAccepted"
           "HR_EXECUTIVE" "Hiring" 0 1 2 3
           (legality_result true false "Valid HR workflow transition")
           (policy_result "REQUIRE_APPROVAL" [VStr "Offers need sign-off"])
           (VStr "REQUIRE_APPROVAL")
           (VList [VStr "Offers need sign-off"]) no_approval);
    try reflexivity.
  - discriminate.
  - left. reflexivity.
Defined.

Lemma governance_decision_allowed_witness :
  returned (run (fixed (inr (legality_result true false "Valid HR workflow transition"))
                   (inr (policy_result "ALLOW" []))
                   (inl (External "not consulted")))
              (governance_decision "OfferMade" "OfferAccepted" "HR_EXECUTIVE" "Hiring") 0)
    = inr (VDict {[ "verdict" := VStr "ALLOWED";
                    "reason" := VStr "Process and policy compliant";
                    "authority" := GovernanceLayer ]}).
Proof.
  apply (governance_decision_allowed _ "OfferMade" "OfferAccepted"
           "HR_EXECUTIVE" "Hiring" 0 1 2
           (legality_result true false "Valid HR workflow transition")
           (policy_result "ALLOW" [])); reflexivity.
Defined.

Lemma governance_decision_blocked_reason_witness :
  ∃ reason,
    subscript (VDict {[ "verdict" := VStr "BLOCKED";
                        "reason" := VStr "No such transition";
                        "authority" := ProcessAuthority ]}) "reason"
      = inr reason
    ∧ non_empty reason.
Proof.
  apply (governance_decision_blocked_reason
           (fixed (inr (legality_result false false "No such transition"))
              (inl (External "not consulted")) (inl (External "not consulted")))
           "Applied" "OfferAccepted" "HR_EXECUTIVE" "Hiring" 0).
  - apply Forall_cons. split; [| constructor].
    exists false, false, "No such transition".
    split; [reflexivity |]. split; [reflexivity |].
    split; [reflexivity | intros _; discriminate].
  - reflexivity.
  - reflexivity.
Defined.

Lemma governance_decision_propagates_witness :
  let h := fixed (inr (legality_result true false "Valid HR workflow transition"))
             (inl (External "StoreUnavailable")) (inr no_approval) in
  returned (run h (governance_decision "OfferMade" "OfferAccepted" "HR_EXECUTIVE" "Hiring") 0)
    = inl (External "StoreUnavailable")
  ∧ ∀ verdict,
      returned (run h (governance_decision "OfferMade" "OfferAccepted" "HR_EXECUTIVE" "Hiring") 0)
        ≠ inr verdict.
Proof.
  intros h.
  apply (governance_decision_propagates h "OfferMade" "OfferAccepted"
           "HR_EXECUTIVE" "Hiring" 0 (CallPolicyConstraints "Hiring" "HR_EXECUTIVE")).
  right. left.
Defined.

Lemma governance_decision_pure_witness :
  let request :=
    governance_decision "OfferMade" "OfferAccepted" "HR_EXECUTIVE" "Hiring" in
  let first := run repository request store_without_policy in
  returned first = returned (run repository request (world first))
  ∧ calls first = calls (run repository request (world first)).
Proof.
  intros request first.
  apply (governance_decision_pure repository repository
           "OfferMade" "OfferAccepted" "HR_EXECUTIVE" "Hiring"
           store_without_policy (world first)).
  vm_compute. reflexivity.
Defined.

Lemma check_policy_constraints_precedence_witness :
  ∃ severity policies,
    returned (run (canned [policy_allow; policy_block])
                (check_policy_constraints "Hiring" "HR_EXECUTIVE") tt)
      = inr (VDict {[ "severity" := VStr severity;
                      "policies" := VList policies ]})
    ∧ policy_texts [policy_allow; policy_block] policies
    ∧ (has_severity "BLOCK" [policy_allow; policy_block] → severity = "BLOCK")
    ∧ (¬ has_severity "BLOCK" [policy_allow; policy_block] →
       has_severity "REQUIRE_APPROVAL" [policy_allow; policy_block] →
       severity = "REQUIRE_APPROVAL")
    ∧ (¬ has_severity "BLOCK" [policy_allow; policy_block] →
       ¬ has_severity "REQUIRE_APPROVAL" [policy_allow; policy_block] →
       severity = "ALLOW")
    ∧ ([policy_allow; policy_block] = [] → severity = "ALLOW" ∧ policies = []).
Proof.
  apply (check_policy_constraints_precedence (canned [policy_allow; policy_block])
           "Hiring" "HR_EXECUTIVE" tt tt).
  - reflexivity.
  - apply Forall_cons. split.
    + exists (VStr "ALLOW"), (HStr "ALLOW"), (VStr "Offers are logged").
      repeat split; reflexivity.
    + apply Forall_cons. split; [| constructor].
      exists (VStr "BLOCK"), (HStr "BLOCK"), (VStr "Hiring freeze").
      split; [reflexivity | split; reflexivity].
Defined.

Lemma get_approval_requirement_first_match_witness :
  calls (run weaviate_fetch
           (get_approval_requirement "HR" "Hiring" "OfferAccepted" "HR_EXECUTIVE")
           store_without_policy)
    = [(fetch_objects "ApprovalPolicy" hiring_offer_query,
        inr [hiring_offer_approval])]
  ∧ Filter_matches hiring_offer_query hiring_offer_approval = true
  ∧ returned (run weaviate_fetch
                (get_approval_requirement "HR" "Hiring" "OfferAccepted" "HR_EXECUTIVE")
                store_without_policy)
      = inr hiring_offer_requirement.
Proof.
  destruct (get_approval_requirement_first_match weaviate_fetch
              "HR" "Hiring" "OfferAccepted" "HR_EXECUTIVE"
              store_without_policy store_without_policy
              [hiring_offer_approval] eq_refl)
    as (Hcalls & Hmatch & _ & Hfirst).
  split; [exact Hcalls |]. split.
  - apply Hmatch. repeat split; reflexivity.
  - apply (Hfirst hiring_offer_approval []); reflexivity.
Defined.

Lemma governance_decision_approval_without_policy_witness :
  returned (run (collaborators
                   (λ _ _ _ w, (inr (legality_result true true "Offer needs sign-off"), w))
                   weaviate_fetch)
              (governance_decision "OfferMade" "OfferAccepted" "HR_EXECUTIVE" "Hiring")
              store_without_policy)
    = inr (VDict {[ "verdict" := VStr "NEEDS_APPROVAL";
                    "reason" := VList [];
                    "approval" := hiring_offer_requirement;
                    "authority" := GovernanceLayer ]})
  ∧ ¬ non_empty (VList []).
Proof.
  apply (governance_decision_approval_without_policy
           (λ _ _ _ w, (inr (legality_result true true "Offer needs sign-off"), w))
           weaviate_fetch "OfferMade" "OfferAccepted" "HR_EXECUTIVE" "Hiring"
           store_without_policy store_without_policy store_without_policy
           (legality_result true true "Offer needs sign-off")
           hiring_offer_requirement); reflexivity.
Defined.

(** ** The repository as it stands *)

(** With the approval record in place and a policy that asks for
    approval, the request of [test_governance.py] needs the approval the
    record describes. *)
Example repository_offer_needs_approval :
  returned (run repository
              (governance_decision "OfferMade" "OfferAccepted" "HR_EXECUTIVE" "Hiring")
              (Weaviate true
                 {[ "HRPolicy" :=
                      [Object {[ "domain" := VStr "HR";
                                 "applies_to" := VStr "Hiring";
                                 "roles" := VList [VStr "HR_EXECUTIVE"];
                                 "severity" := VStr "REQUIRE_APPROVAL";
                                 "policy_text" := VStr "Offers need sign-off" ]}];
                    "ApprovalPolicy" := [hiring_offer_approval] ]}))
    = inr (VDict {[ "verdict" := VStr "NEEDS_APPROVAL";
                    "reason" := VList [VStr "Offers need sign-off"];
                    "approval" := hiring_offer_requirement;
                    "authority" := GovernanceLayer ]}).
Proof. vm_compute. reflexivity. Qed.

(** With no policy on record, the same request is allowed. *)
Example repository_offer_allowed :
  returned (run repository
              (governance_decision "OfferMade" "OfferAccepted" "HR_EXECUTIVE" "Hiring")
              store_without_policy)
    = inr (VDict {[ "verdict" := VStr "ALLOWED";
                    "reason" := VStr "Process and policy compliant";
                    "authority" := GovernanceLayer ]}).
Proof. vm_compute. reflexivity. Qed.

(** With the store down, the request fails with the store's exception. *)
Example repository_store_down :
  returned (run repository
              (governance_decision "OfferMade" "OfferAccepted" "HR_EXECUTIVE" "Hiring")
              (Weaviate false ∅))
    = inl (External "StoreUnavailable").
Proof. vm_compute. reflexivity. Qed.

(** ** The contracts hold of the repository's own collaborators *)

Lemma collect_policies_length (objects : list object) :
  ∀ severities policies severities' policies',
    collect_policies objects severities policies = inr (severities', policies') →
    length policies' = length policies + length objects.
Proof.
  induction objects as [| o rest IH]; intros severities policies s' p'; cbn.
  - intros [= _ <-]. lia.
  - destruct (getitem (properties o) "severity") as [e | severity]; cbn;
      [discriminate |].
    destruct (hash_key severity) as [e | key]; cbn; [discriminate |].
    destruct (getitem (properties o) "policy_text") as [e | text]; cbn;
      [discriminate |].
    intros Hrun. apply IH in Hrun. rewrite Hrun, length_app. cbn. lia.
Qed.

(** Whatever the store answers, a result of [check_policy_constraints]
    with no policies has severity ALLOW. *)
Lemma check_policy_constraints_contract {W : Type}
    (h : handler store_call (list object) W) (workflow role : string)
    (w : W) (policy : value) :
  returned (run h (check_policy_constraints workflow role) w) = inr policy →
  PolicyConstraintResult_inv policy.
Proof.
  cbn. destruct (h _ w) as [[e | objects] w1]; cbn; [discriminate |].
  destruct objects as [| o rest].
  - cbn. intros [= <-]. exists (VStr "ALLOW"), [].
    split; [reflexivity |]. split; [reflexivity |]. reflexivity.
  - destruct (collect_policies (o :: rest) ∅ [])
      as [e | [severities policies]] eqn:Hrun; cbn; [discriminate |].
    apply collect_policies_length in Hrun.
    assert (policies ≠ []) as Hne.
    { intros ->. cbn in Hrun. lia. }
    repeat case_match; cbn; intros [= <-].
    + exists (VStr "BLOCK"), policies.
      split; [reflexivity |]. split; [reflexivity |]. contradiction.
    + exists (VStr "REQUIRE_APPROVAL"), policies.
      split; [reflexivity |]. split; [reflexivity |]. contradiction.
    + exists (VStr "ALLOW"), policies.
      split; [reflexivity |]. split; [reflexivity |]. contradiction.
Qed.

(** So does every answer the resolver gets in the repository as it
    stands, whatever the store holds. *)
Lemma repository_responses_ok
    (current_state next_state role workflow : string) (w : weaviate) :
  Forall response_ok
    (calls (run repository
              (governance_decision current_state next_state role workflow) w)).
Proof.
  cbn -[check_policy_constraints get_approval_requirement].
  assert (getitem {[ "valid" := VBool true;
                     "approval_required" := VBool false;
                     "reason" := VStr "Valid HR workflow transition" ]}
            "valid" = inr (VBool true)) as -> by reflexivity.
  assert (getitem {[ "valid" := VBool true;
                     "approval_required" := VBool false;
                     "reason" := VStr "Valid HR workflow transition" ]}
            "approval_required" = inr (VBool false)) as -> by reflexivity.
  cbn -[check_policy_constraints get_approval_requirement].
  constructor.
  { exists true, false, "Valid HR workflow transition".
    split; [reflexivity |]. split; [reflexivity |].
    split; [reflexivity | discriminate]. }
  destruct (returned (run weaviate_fetch (check_policy_constraints workflow role) w))
    as [e | policy] eqn:Hpolicy; cbn -[check_policy_constraints get_approval_requirement].
  { constructor; [exact I | constructor]. }
  constructor.
  { eapply check_policy_constraints_contract, Hpolicy. }
  destruct (subscript policy "severity") as [e | severity];
    cbn -[check_policy_constraints get_approval_requirement]; [constructor |].
  destruct (eq_str severity "BLOCK");
    cbn -[check_policy_constraints get_approval_requirement].
  { destruct (subscript policy "policies"); cbn; constructor. }
  destruct (eq_str severity "REQUIRE_APPROVAL");
    cbn -[check_policy_constraints get_approval_requirement];
    [| constructor].
  destruct (returned (run weaviate_fetch
              (get_approval_requirement "HR" workflow next_state role) _))
    as [e | approval]; cbn -[check_policy_constraints get_approval_requirement].
  { constructor; [exact I | constructor]. }
  constructor; [exact I |].
  destruct (subscript policy "policies"); cbn; constructor.
Qed.

(** * Further properties of the code *)

(** ** Sequencing *)

(** Running [do x ← p; f x]: [p] runs first; if it raises, that is the
    end; otherwise [f] runs on its value in the world [p] left, and the
    calls of both are logged in order. *)
Lemma run_bind {C R W A B : Type}
    (h : handler C R W) (p : prog C R A) (f : A → prog C R B) :
  ∀ w,
    run h (bind p f) w
    = match returned (run h p w) with
      | inl e => Outcome (inl e) (world (run h p w)) (calls (run h p w))
      | inr a =>
          let o := run h (f a) (world (run h p w)) in
          Outcome (returned o) (world o) (calls (run h p w) ++ calls o)
      end.
Proof.
  induction p as [a | e | c k IH]; intros w; cbn.
  - destruct (run h (f a) w); reflexivity.
  - reflexivity.
  - destruct (h c w) as [[e | r] w1]; cbn; [reflexivity |].
    rewrite IH. destruct (returned (run h (k r) w1)); reflexivity.
Qed.

(** ** The resolver: what a verdict tells, and what goes wrong *)

(** Case analysis of one evaluation of the resolver, down to its leaves. *)
Ltac resolver_cases h w :=
  cbn;
  destruct (h (CallProcessLegality _ _ _) w) as [[? | process] w1] eqn:Hlegal;
  cbn; [|
  destruct (subscript process "valid") as [? | valid] eqn:Hvalid;
  cbn; [|
  destruct (truthy valid) eqn:Htruthy;
  cbn; [
    destruct (h (CallPolicyConstraints _ _) w1) as [[? | policy] w2] eqn:Hpolicy;
    cbn; [|
    destruct (subscript policy "severity") as [? | severity] eqn:Hseverity;
    cbn; [|
    destruct (eq_str severity "BLOCK") eqn:Hblock;
    cbn; [
      destruct (subscript policy "policies") as [? | policies] eqn:Hpolicies;
      cbn
    |
      destruct (eq_str severity "REQUIRE_APPROVAL") eqn:Hrequire;
      cbn; [
        destruct (h (CallApprovalRequirement _ _ _ _) w2)
          as [[? | approval] w3] eqn:Happroval;
        cbn; [|
        destruct (subscript policy "policies") as [? | policies] eqn:Hpolicies;
        cbn ]
      |
        destruct (subscript process "approval_required")
          as [? | flag] eqn:Hflag;
        cbn; [|
        destruct (truthy flag) eqn:Hgate;
        cbn; [
          destruct (h (CallApprovalRequirement _ _ _ _) w2)
            as [[? | approval] w3] eqn:Happroval;
          cbn; [|
          destruct (subscript policy "policies") as [? | policies] eqn:Hpolicies;
          cbn ]
        | ] ] ] ] ] ]
  |
    destruct (subscript process "reason") as [? | reason] eqn:Hreason;
    cbn ] ] ].

Section ResolverEdges.
Context {W : Type} (h : handler collaborator_call value W).
Variables current_state next_state role workflow : string.

Local Abbreviation resolve :=
  (governance_decision current_state next_state role workflow).

(** X1.  Whatever the collaborators answer, a value returned by the resolver
    is a dictionary with a reason and one of three verdicts: BLOCKED
    (authority [NebulaGraph] or [Weaviate], no [approval] key),
    NEEDS_APPROVAL (authority [GovernanceLayer], with an [approval] key)
    or ALLOWED (authority [GovernanceLayer], the fixed reason, no
    [approval] key). *)
Theorem governance_decision_verdict_shape (w : W) (verdict : value) :
  returned (run h resolve w) = inr verdict →
  ∃ d : gmap string value,
    verdict = VDict d
    ∧ is_Some (d !! "reason")
    ∧ ((d !! "verdict" = Some (VStr "BLOCKED")
        ∧ d !! "approval" = None
        ∧ (d !! "authority" = Some (VStr "NebulaGraph")
           ∨ d !! "authority" = Some (VStr "Weaviate")))
       ∨ (d !! "verdict" = Some (VStr "NEEDS_APPROVAL")
          ∧ is_Some (d !! "approval")
          ∧ d !! "authority" = Some (VStr "GovernanceLayer"))
       ∨ (d !! "verdict" = Some (VStr "ALLOWED")
          ∧ d !! "approval" = None
          ∧ d !! "reason" = Some (VStr "Process and policy compliant")
          ∧ d !! "authority" = Some (VStr "GovernanceLayer"))).
Proof.
  resolver_cases h w; intros [= <-]; eexists; (split; [reflexivity |]).
  - split; [eexists; reflexivity |]. left.
    split; [reflexivity |]. split; [reflexivity |]. right. reflexivity.
  - split; [eexists; reflexivity |]. right. left.
    split; [reflexivity |]. split; [eexists; reflexivity | reflexivity].
  - split; [eexists; reflexivity |]. right. left.
    split; [reflexivity |]. split; [eexists; reflexivity | reflexivity].
  - split; [eexists; reflexivity |]. right. right.
    split; [reflexivity |]. split; [reflexivity |].
    split; reflexivity.
  - split; [eexists; reflexivity |]. left.
    split; [reflexivity |]. split; [reflexivity |]. left. reflexivity.
Qed.

(** X2.  The collaborators are called in one order, each at most once: the
    legality check always and first, then the policy evaluator, then the
    approval resolver, the latter with domain ["HR"] and the entered
    state as action. *)
Theorem governance_decision_call_order (w : W) :
  map fst (calls (run h resolve w))
    `prefix_of` [CallProcessLegality current_state next_state role;
                 CallPolicyConstraints workflow role;
                 CallApprovalRequirement "HR" workflow next_state role]
  ∧ head (map fst (calls (run h resolve w)))
    = Some (CallProcessLegality current_state next_state role).
Proof.
  resolver_cases h w; (split; [| reflexivity]);
    first [ by eexists [_; _] | by eexists [_] | by eexists [] ].
Qed.
(** X3.  ALLOWED is only ever returned after both the legality check and the
    policy evaluator have answered, with a truthy [valid], a severity that
    is neither BLOCK nor REQUIRE_APPROVAL, and a falsy
    [approval_required]; the approval resolver was not called. *)
Theorem governance_decision_allowed_only_if (w : W) (verdict : value) :
  returned (run h resolve w) = inr verdict →
  subscript verdict "verdict" = inr (VStr "ALLOWED") →
  ∃ process policy valid severity flag,
    calls (run h resolve w)
      = [(CallProcessLegality current_state next_state role, inr process);
         (CallPolicyConstraints workflow role, inr policy)]
    ∧ subscript process "valid" = inr valid ∧ truthy valid = true
    ∧ subscript policy "severity" = inr severity
    ∧ eq_str severity "BLOCK" = false
    ∧ eq_str severity "REQUIRE_APPROVAL" = false
    ∧ subscript process "approval_required" = inr flag
    ∧ truthy flag = false.
Proof.
  resolver_cases h w; intros [= <-] Hverdict;
    try (vm_compute in Hverdict; discriminate).
  exists process, policy, valid, severity, flag. repeat split; assumption.
Qed.

(** X4.  NEEDS_APPROVAL is only ever returned after the approval resolver has
    answered the question [("HR", workflow, next_state, role)]; the verdict
    carries that answer and the evaluator's [policies], and the gate was
    open: a truthy [valid], a severity other than BLOCK, and either
    REQUIRE_APPROVAL or a truthy [approval_required]. *)
Theorem governance_decision_needs_approval_only_if (w : W) (verdict : value) :
  returned (run h resolve w) = inr verdict →
  subscript verdict "verdict" = inr (VStr "NEEDS_APPROVAL") →
  ∃ process policy approval valid severity policies,
    calls (run h resolve w)
      = [(CallProcessLegality current_state next_state role, inr process);
         (CallPolicyConstraints workflow role, inr policy);
         (CallApprovalRequirement "HR" workflow next_state role, inr approval)]
    ∧ verdict = VDict {[ "verdict" := VStr "NEEDS_APPROVAL";
                         "reason" := policies;
                         "approval" := approval;
                         "authority" := VStr "GovernanceLayer" ]}
    ∧ subscript policy "policies" = inr policies
    ∧ subscript process "valid" = inr valid ∧ truthy valid = true
    ∧ subscript policy "severity" = inr severity
    ∧ eq_str severity "BLOCK" = false
    ∧ (eq_str severity "REQUIRE_APPROVAL" = true
       ∨ ∃ flag, subscript process "approval_required" = inr flag
                 ∧ truthy flag = true).
Proof.
  resolver_cases h w; intros [= <-] Hverdict;
    try (vm_compute in Hverdict; discriminate).
  - exists process, policy, approval, valid, severity, policies.
    repeat split; try assumption; try reflexivity. left. assumption.
  - exists process, policy, approval, valid, severity, policies.
    repeat split; try assumption; try reflexivity.
    right. exists flag. split; assumption.
Qed.

(** X5.  BLOCKED is only ever returned in two ways: by the legality check
    alone, on a falsy [valid], with its reason and the tag [NebulaGraph];
    or after the policy evaluator answered severity BLOCK, with its
    [policies] and the tag [Weaviate].  Either way the approval resolver
    was not called. *)
Theorem governance_decision_blocked_only_if (w : W) (verdict : value) :
  returned (run h resolve w) = inr verdict →
  subscript verdict "verdict" = inr (VStr "BLOCKED") →
  (∃ process valid reason,
     calls (run h resolve w)
       = [(CallProcessLegality current_state next_state role, inr process)]
     ∧ subscript process "valid" = inr valid ∧ truthy valid = false
     ∧ subscript process "reason" = inr reason
     ∧ verdict = VDict {[ "verdict" := VStr "BLOCKED";
                          "reason" := reason;
                          "authority" := VStr "NebulaGraph" ]})
  ∨ (∃ process policy valid severity policies,
       calls (run h resolve w)
         = [(CallProcessLegality current_state next_state role, inr process);
            (CallPolicyConstraints workflow role, inr policy)]
       ∧ subscript process "valid" = inr valid ∧ truthy valid = true
       ∧ subscript policy "severity" = inr severity
       ∧ eq_str severity "BLOCK" = true
       ∧ subscript policy "policies" = inr policies
       ∧ verdict = VDict {[ "verdict" := VStr "BLOCKED";
                            "reason" := policies;
                            "authority" := VStr "Weaviate" ]}).
Proof.
  resolver_cases h w; intros [= <-] Hverdict;
    try (vm_compute in Hverdict; discriminate).
  - right. exists process, policy, valid, severity, policies.
    repeat split; try assumption; reflexivity.
  - left. exists process, valid, reason.
    repeat split; try assumption; reflexivity.
Qed.

(** X6.  A severity the resolver does not know lets the transition through:
    anything but the exact strings ["BLOCK"] and ["REQUIRE_APPROVAL"]
    (another spelling, another case, [None]) counts as ALLOW. *)
Theorem governance_decision_unknown_severity
    (w w1 w2 : W) (process policy valid severity flag : value) :
  h (CallProcessLegality current_state next_state role) w
    = (inr process, w1) →
  subscript process "valid" = inr valid → truthy valid = true →
  subscript process "approval_required" = inr flag → truthy flag = false →
  h (CallPolicyConstraints workflow role) w1 = (inr policy, w2) →
  subscript policy "severity" = inr severity →
  severity ≠ VStr "BLOCK" → severity ≠ VStr "REQUIRE_APPROVAL" →
  returned (run h resolve w)
    = inr (VDict {[ "verdict" := VStr "ALLOWED";
                    "reason" := VStr "Process and policy compliant";
                    "authority" := VStr "GovernanceLayer" ]}).
Proof.
  intros Hlegal Hvalid Htruthy Hflag Hgate Hpolicy Hseverity Hblock Hrequire.
  assert (∀ lit, severity ≠ VStr lit → eq_str severity lit = false) as Hne.
  { intros lit Hlit. destruct severity; try reflexivity. cbn.
    apply String.eqb_neq. congruence. }
  cbn. rewrite Hlegal. cbn. rewrite Hvalid. cbn. rewrite Htruthy. cbn.
  rewrite Hpolicy. cbn. rewrite Hseverity. cbn.
  rewrite (Hne _ Hblock). cbn. rewrite (Hne _ Hrequire). cbn.
  rewrite Hflag. cbn. rewrite Hgate. reflexivity.
Qed.

(** X7.  The legality gate tests truth, not [False]: any falsy [valid] ([None],
    [0], an empty string, list or dictionary) blocks the transition, the
    policy evaluator and the approval resolver are not called. *)
Theorem governance_decision_falsy_valid
    (w w1 : W) (process valid reason : value) :
  h (CallProcessLegality current_state next_state role) w
    = (inr process, w1) →
  subscript process "valid" = inr valid → truthy valid = false →
  subscript process "reason" = inr reason →
  returned (run h resolve w)
    = inr (VDict {[ "verdict" := VStr "BLOCKED";
                    "reason" := reason;
                    "authority" := VStr "NebulaGraph" ]})
  ∧ calls (run h resolve w)
    = [(CallProcessLegality current_state next_state role, inr process)].
Proof.
  intros Hlegal Hvalid Htruthy Hreason.
  cbn. rewrite Hlegal. cbn. rewrite Hvalid. cbn. rewrite Htruthy. cbn.
  rewrite Hreason. split; reflexivity.
Qed.

(** X8.  A legality answer that cannot be read (no [valid] key, or not a
    dictionary) ends the evaluation with that lookup's exception, before
    the policy evaluator is called; so does a blocking answer that has no
    [reason]. *)
Theorem governance_decision_unreadable_legality
    (w w1 : W) (process : value) (e : exn) :
  h (CallProcessLegality current_state next_state role) w
    = (inr process, w1) →
  subscript process "valid" = inl e
  ∨ (∃ valid, subscript process "valid" = inr valid ∧ truthy valid = false
              ∧ subscript process "reason" = inl e) →
  returned (run h resolve w) = inl e
  ∧ calls (run h resolve w)
    = [(CallProcessLegality current_state next_state role, inr process)].
Proof.
  intros Hlegal [Hvalid | (valid & Hvalid & Htruthy & Hreason)].
  - cbn. rewrite Hlegal. cbn. rewrite Hvalid. split; reflexivity.
  - cbn. rewrite Hlegal. cbn. rewrite Hvalid. cbn. rewrite Htruthy. cbn.
    rewrite Hreason. split; reflexivity.
Qed.

(** X9.  The evaluator's [policies] are read only after the approval resolver
    has answered: a policy answer without that key still costs the
    approval lookup, and then the evaluation ends with the [KeyError]
    instead of a verdict. *)
Theorem governance_decision_policies_read_last
    (w w1 w2 w3 : W) (process policy valid approval : value) (e : exn) :
  h (CallProcessLegality current_state next_state role) w
    = (inr process, w1) →
  subscript process "valid" = inr valid → truthy valid = true →
  h (CallPolicyConstraints workflow role) w1 = (inr policy, w2) →
  subscript policy "severity" = inr (VStr "REQUIRE_APPROVAL") →
  subscript policy "policies" = inl e →
  h (CallApprovalRequirement "HR" workflow next_state role) w2
    = (inr approval, w3) →
  returned (run h resolve w) = inl e
  ∧ world (run h resolve w) = w3
  ∧ calls (run h resolve w)
    = [(CallProcessLegality current_state next_state role, inr process);
       (CallPolicyConstraints workflow role, inr policy);
       (CallApprovalRequirement "HR" workflow next_state role, inr approval)].
Proof.
  intros Hlegal Hvalid Htruthy Hpolicy Hseverity Hpolicies Happroval.
  cbn. rewrite Hlegal. cbn. rewrite Hvalid. cbn. rewrite Htruthy. cbn.
  rewrite Hpolicy. cbn. rewrite Hseverity. cbn.
  rewrite Happroval. cbn. rewrite Hpolicies. cbn.
  split; [reflexivity |]. split; reflexivity.
Qed.
End ResolverEdges.

(** ** The policy evaluator: malformed records, order, growth *)

Lemma policy_texts_texts_of (objects : list object) (texts : list value) :
  policy_texts objects texts → texts = texts_of objects.
Proof.
  unfold policy_texts, texts_of.
  induction 1 as [| o text rest texts Htext _ IH]; cbn; [reflexivity |].
  rewrite Htext. cbn. congruence.
Qed.

Lemma has_severity_existsb (lit : string) (objects : list object) :
  has_severity lit objects ↔ existsb (severity_is lit) objects = true.
Proof.
  unfold has_severity. rewrite existsb_exists, Exists_exists.
  assert (∀ o, properties o !! "severity" = Some (VStr lit)
               ↔ severity_is lit o = true) as Hiff.
  { intros o. unfold severity_is.
    destruct (properties o !! "severity") as [v |]; [| split; discriminate].
    destruct v; cbn; try (split; [congruence | discriminate]).
    rewrite String.eqb_eq. split; congruence. }
  split; intros (o & Hin & Ho); exists o;
    (split; [by apply list_elem_of_In | by apply Hiff]).
Qed.

(** On well-formed records the evaluator returns the strongest severity
    and the texts in order. *)
Lemma check_policy_constraints_returns {W : Type}
    (h : handler store_call (list object) W) (workflow role : string)
    (w w1 : W) (objects : list object) :
  h (fetch_objects "HRPolicy"
       (by_property_equal "domain" "HR"
        &&& by_property_equal "applies_to" workflow
        &&& by_property_contains_any "roles" [role])) w
    = (inr objects, w1) →
  Forall policy_record objects →
  returned (run h (check_policy_constraints workflow role) w)
    = inr (policy_result (strongest_severity objects) (texts_of objects)).
Proof.
  intros Hfetch Hrecords. cbn. rewrite Hfetch. cbn.
  destruct objects as [| o rest]; [reflexivity |].
  destruct (collect_policies_spec (o :: rest) Hrecords ∅ [])
    as (severities & texts & Hrun & Htexts & Hset).
  rewrite Hrun. cbn. apply policy_texts_texts_of in Htexts as ->.
  unfold set_contains_str, strongest_severity.
  pose proof (Hset "BLOCK") as Hblock.
  pose proof (Hset "REQUIRE_APPROVAL") as Happroval.
  rewrite elem_of_empty, has_severity_existsb in Hblock, Happroval.
  destruct (existsb (severity_is "BLOCK") (o :: rest));
    destruct (existsb (severity_is "REQUIRE_APPROVAL") (o :: rest));
    repeat case_bool_decide; try reflexivity; exfalso; intuition congruence.
Qed.

(** The loop either gets through every record, all of them well-formed,
    or stops at a malformed one with the exception of the failed step. *)
Lemma collect_policies_all_or_nothing (objects : list object) :
  ∀ severities policies,
    (Forall policy_record objects
     ∧ ∃ collected, collect_policies objects severities policies = inr collected)
    ∨ (Exists (λ o, ¬ policy_record o) objects
       ∧ ∃ e, collect_policies objects severities policies = inl e
              ∧ (e = KeyError "severity" ∨ e = KeyError "policy_text"
                 ∨ ∃ what, e = TypeError what)).
Proof.
  induction objects as [| o rest IH]; intros severities policies; cbn.
  - left. split; [constructor | eexists; reflexivity].
  - unfold getitem.
    destruct (properties o !! "severity") as [severity |] eqn:Hseverity; cbn.
    2: { right. split.
         - left. intros (s & k & t & Hs & _). congruence.
         - eexists. split; [reflexivity |]. left. reflexivity. }
    destruct (hash_key severity) as [e | key] eqn:Hkey; cbn.
    { right. split.
      - left. intros (s & k & t & Hs & Hk & _). congruence.
      - exists e. split; [reflexivity |]. right. right.
        destruct severity; cbn in Hkey; try discriminate;
          injection Hkey as <-; eexists; reflexivity. }
    destruct (properties o !! "policy_text") as [text |] eqn:Htext; cbn.
    2: { right. split.
         - left. intros (s & k & t & _ & _ & Ht). congruence.
         - eexists. split; [reflexivity |]. right. left. reflexivity. }
    destruct (IH ({[key]} ∪ severities) (policies ++ [text])%list)
      as [[Hall Hrun] | [Hsome Hrun]].
    + left. split; [| exact Hrun].
      constructor; [| exact Hall]. exists severity, key, text. auto.
    + right. split; [right; exact Hsome | exact Hrun].
Qed.

(** X10.  One malformed record among those matched (no [severity], a severity
    that cannot go into a set, or no [policy_text]) makes the whole
    evaluation fail, whatever the other records say; and the evaluation
    succeeds exactly when every record is well-formed. *)
Theorem check_policy_constraints_all_or_nothing {W : Type}
    (h : handler store_call (list object) W) (workflow role : string)
    (w w1 : W) (objects : list object) :
  h (fetch_objects "HRPolicy"
       (by_property_equal "domain" "HR"
        &&& by_property_equal "applies_to" workflow
        &&& by_property_contains_any "roles" [role])) w
    = (inr objects, w1) →
  (Forall policy_record objects
   ∧ returned (run h (check_policy_constraints workflow role) w)
     = inr (policy_result (strongest_severity objects) (texts_of objects)))
  ∨ (Exists (λ o, ¬ policy_record o) objects
     ∧ ∃ e, returned (run h (check_policy_constraints workflow role) w) = inl e
            ∧ (e = KeyError "severity" ∨ e = KeyError "policy_text"
               ∨ ∃ what, e = TypeError what)).
Proof.
  intros Hfetch.
  destruct (collect_policies_all_or_nothing objects ∅ [])
    as [[Hall _] | [Hsome (e & Hrun & Hkind)]].
  - left. split; [exact Hall |].
    eapply check_policy_constraints_returns; eassumption.
  - right. split; [exact Hsome |]. exists e. split; [| exact Hkind].
    cbn. rewrite Hfetch. cbn.
    destruct objects as [| o rest]; [inversion Hsome |].
    rewrite Hrun. reflexivity.
Qed.

(** X11.  The order in which the store returns the records does not change the
    severity; it only reorders the texts. *)
Theorem check_policy_constraints_permutation {W1 W2 : Type}
    (h1 : handler store_call (list object) W1)
    (h2 : handler store_call (list object) W2)
    (workflow role : string) (w1 w1' : W1) (w2 w2' : W2)
    (objects1 objects2 : list object) :
  let filters :=
    by_property_equal "domain" "HR"
    &&& by_property_equal "applies_to" workflow
    &&& by_property_contains_any "roles" [role] in
  h1 (fetch_objects "HRPolicy" filters) w1 = (inr objects1, w1') →
  h2 (fetch_objects "HRPolicy" filters) w2 = (inr objects2, w2') →
  objects1 ≡ₚ objects2 →
  Forall policy_record objects1 →
  ∃ severity policies1 policies2,
    returned (run h1 (check_policy_constraints workflow role) w1)
      = inr (policy_result severity policies1)
    ∧ returned (run h2 (check_policy_constraints workflow role) w2)
      = inr (policy_result severity policies2)
    ∧ policies1 ≡ₚ policies2.
Proof.
  intros filters Hfetch1 Hfetch2 Hperm Hrecords. subst filters.
  assert (Forall policy_record objects2) as Hrecords2 by by rewrite <- Hperm.
  exists (strongest_severity objects1), (texts_of objects1), (texts_of objects2).
  split; [eapply check_policy_constraints_returns; eassumption |].
  split.
  - erewrite check_policy_constraints_returns by eassumption.
    do 2 f_equal. unfold strongest_severity.
    assert (∀ lit, existsb (severity_is lit) objects2
                   = existsb (severity_is lit) objects1) as Hsame.
    { intros lit. apply eq_true_iff_eq.
      rewrite <- !has_severity_existsb. unfold has_severity.
      by rewrite Hperm. }
    by rewrite !Hsame.
  - unfold texts_of. by rewrite Hperm.
Qed.

(** X12.  More matched records never weaken the outcome: with further records
    after the first ones the severity is as strong or stronger, and the
    texts so far are kept in front. *)
Theorem check_policy_constraints_monotone {W1 W2 : Type}
    (h1 : handler store_call (list object) W1)
    (h2 : handler store_call (list object) W2)
    (workflow role : string) (w1 w1' : W1) (w2 w2' : W2)
    (objects more : list object) :
  let filters :=
    by_property_equal "domain" "HR"
    &&& by_property_equal "applies_to" workflow
    &&& by_property_contains_any "roles" [role] in
  h1 (fetch_objects "HRPolicy" filters) w1 = (inr objects, w1') →
  h2 (fetch_objects "HRPolicy" filters) w2 = (inr (objects ++ more)%list, w2') →
  Forall policy_record (objects ++ more)%list →
  ∃ severity1 severity2 policies1 policies2,
    returned (run h1 (check_policy_constraints workflow role) w1)
      = inr (policy_result severity1 policies1)
    ∧ returned (run h2 (check_policy_constraints workflow role) w2)
      = inr (policy_result severity2 policies2)
    ∧ (severity_rank severity1 ≤ severity_rank severity2)%nat
    ∧ policies1 `prefix_of` policies2.
Proof.
  intros filters Hfetch1 Hfetch2 Hrecords. subst filters.
  pose proof Hrecords as Hrecords'. apply Forall_app in Hrecords' as [Hfirst _].
  exists (strongest_severity objects), (strongest_severity (objects ++ more)),
    (texts_of objects), (texts_of (objects ++ more)).
  split; [eapply check_policy_constraints_returns; eassumption |].
  split; [eapply check_policy_constraints_returns; eassumption |].
  split.
  - unfold strongest_severity. rewrite !existsb_app.
    destruct (existsb (severity_is "BLOCK") objects),
      (existsb (severity_is "BLOCK") more),
      (existsb (severity_is "REQUIRE_APPROVAL") objects),
      (existsb (severity_is "REQUIRE_APPROVAL") more); cbn; lia.
  - unfold texts_of. rewrite omap_app. by eexists.
Qed.

(** X13.  Whatever the records hold, a result of the evaluator is a dictionary
    of a severity among the three and a list with one text per matched
    record: texts are not deduplicated. *)
Theorem check_policy_constraints_result_shape {W : Type}
    (h : handler store_call (list object) W) (workflow role : string)
    (w w1 : W) (objects : list object) (policy : value) :
  h (fetch_objects "HRPolicy"
       (by_property_equal "domain" "HR"
        &&& by_property_equal "applies_to" workflow
        &&& by_property_contains_any "roles" [role])) w
    = (inr objects, w1) →
  returned (run h (check_policy_constraints workflow role) w) = inr policy →
  ∃ severity policies,
    policy = policy_result severity policies
    ∧ (severity = "BLOCK" ∨ severity = "REQUIRE_APPROVAL" ∨ severity = "ALLOW")
    ∧ length policies = length objects.
Proof.
  intros Hfetch. cbn. rewrite Hfetch. cbn.
  destruct objects as [| o rest].
  - cbn. intros [= <-]. exists "ALLOW", []. auto.
  - destruct (collect_policies (o :: rest) ∅ [])
      as [e | [severities policies]] eqn:Hrun; cbn; [discriminate |].
    apply collect_policies_length in Hrun. cbn in Hrun.
    repeat case_match; cbn; intros [= <-].
    + exists "BLOCK", policies. auto.
    + exists "REQUIRE_APPROVAL", policies. auto.
    + exists "ALLOW", policies. auto.
Qed.

(** ** The approval resolver: which record, which fields *)

(** X14.  Only the first record counts: what follows it in the store's answer,
    well-formed or not, has no effect on the result. *)
Theorem get_approval_requirement_ignores_rest {W1 W2 : Type}
    (h1 : handler store_call (list object) W1)
    (h2 : handler store_call (list object) W2)
    (domain workflow action role : string) (w1 w1' : W1) (w2 w2' : W2)
    (first : object) (rest1 rest2 : list object) :
  let filters :=
    by_property_equal "domain" domain
    &&& by_property_equal "workflow" workflow
    &&& by_property_equal "action" action
    &&& by_property_equal "requested_by_role" role in
  h1 (fetch_objects "ApprovalPolicy" filters) w1 = (inr (first :: rest1), w1') →
  h2 (fetch_objects "ApprovalPolicy" filters) w2 = (inr (first :: rest2), w2') →
  returned (run h1 (get_approval_requirement domain workflow action role) w1)
  = returned (run h2 (get_approval_requirement domain workflow action role) w2).
Proof.
  intros filters Hfetch1 Hfetch2. subst filters. cbn.
  rewrite Hfetch1, Hfetch2. cbn. unfold getitem.
  destruct (properties first !! "approver_roles"); cbn; [| reflexivity].
  destruct (properties first !! "approval_level"); cbn; [| reflexivity].
  destruct (properties first !! "auto_approve"); cbn; [| reflexivity].
  destruct (properties first !! "escalation_role"); cbn; reflexivity.
Qed.

(** X15.  A first record that lacks one of the four fields gives no partial
    requirement: the lookup fails with a [KeyError] for the first field
    missing, in the order [approver_roles], [approval_level],
    [auto_approve], [escalation_role]; it succeeds exactly when none is
    missing. *)
Theorem get_approval_requirement_missing_field {W : Type}
    (h : handler store_call (list object) W)
    (domain workflow action role : string) (w w1 : W)
    (first : object) (rest : list object) :
  let fields :=
    ["approver_roles"; "approval_level"; "auto_approve"; "escalation_role"] in
  h (fetch_objects "ApprovalPolicy"
       (by_property_equal "domain" domain
        &&& by_property_equal "workflow" workflow
        &&& by_property_equal "action" action
        &&& by_property_equal "requested_by_role" role)) w
    = (inr (first :: rest), w1) →
  (∀ key, first_missing fields (properties first) = Some key →
     returned (run h (get_approval_requirement domain workflow action role) w)
       = inl (KeyError key))
  ∧ (first_missing fields (properties first) = None ↔
     ∃ requirement,
       returned (run h (get_approval_requirement domain workflow action role) w)
         = inr requirement).
Proof.
  intros fields Hfetch. subst fields. cbn. rewrite Hfetch. cbn. unfold getitem.
  destruct (properties first !! "approver_roles"); cbn.
  2: { split; [intros key [= <-]; reflexivity |].
       split; [discriminate | intros [? ?]; discriminate]. }
  destruct (properties first !! "approval_level"); cbn.
  2: { split; [intros key [= <-]; reflexivity |].
       split; [discriminate | intros [? ?]; discriminate]. }
  destruct (properties first !! "auto_approve"); cbn.
  2: { split; [intros key [= <-]; reflexivity |].
       split; [discriminate | intros [? ?]; discriminate]. }
  destruct (properties first !! "escalation_role"); cbn.
  2: { split; [intros key [= <-]; reflexivity |].
       split; [discriminate | intros [? ?]; discriminate]. }
  split; [discriminate |]. split; [eexists; reflexivity | reflexivity].
Qed.

(** X16.  The requirement holds nothing of the record but the four fields: its
    keys are [approval_required] and [auto_approve] when nothing matched,
    and those two with [approver_roles], [approval_level] and
    [escalation_role] otherwise; [approval_required] says whether anything
    matched, whatever the record stores under that or any other name. *)
Theorem get_approval_requirement_keys {W : Type}
    (h : handler store_call (list object) W)
    (domain workflow action role : string) (w w1 : W)
    (objects : list object) (requirement : value) :
  h (fetch_objects "ApprovalPolicy"
       (by_property_equal "domain" domain
        &&& by_property_equal "workflow" workflow
        &&& by_property_equal "action" action
        &&& by_property_equal "requested_by_role" role)) w
    = (inr objects, w1) →
  returned (run h (get_approval_requirement domain workflow action role) w)
    = inr requirement →
  ∃ d : gmap string value,
    requirement = VDict d
    ∧ d !! "approval_required"
      = Some (VBool (match objects with [] => false | _ => true end))
    ∧ dom d
      = match objects with
        | [] => {[ "approval_required"; "auto_approve" ]}
        | _ => {[ "approval_required"; "approver_roles"; "approval_level";
                  "auto_approve"; "escalation_role" ]}
        end.
Proof.
  intros Hfetch. cbn. rewrite Hfetch. cbn.
  destruct objects as [| first rest]; cbn.
  - intros [= <-]. eexists. split; [reflexivity |].
    split; [reflexivity |]. rewrite !dom_insert_L, dom_singleton_L. set_solver.
  - unfold getitem.
    destruct (properties first !! "approver_roles"); cbn; [| discriminate].
    destruct (properties first !! "approval_level"); cbn; [| discriminate].
    destruct (properties first !! "auto_approve"); cbn; [| discriminate].
    destruct (properties first !! "escalation_role"); cbn; [| discriminate].
    intros [= <-]. eexists. split; [reflexivity |].
    split; [reflexivity |]. rewrite !dom_insert_L, dom_singleton_L. set_solver.
Qed.

(** ** The resolver over the repository's engines *)

Lemma check_process_legality_valid (current_state next_state role : string) :
  subscript (check_process_legality current_state next_state role) "valid"
    = inr (VBool true)
  ∧ subscript (check_process_legality current_state next_state role)
      "approval_required" = inr (VBool false).
Proof. split; reflexivity. Qed.

(** X17.  With the legality check of the repository, which finds every
    transition valid, a BLOCKED verdict can only come from the policy
    store, whatever store is behind the engines: its authority is
    [Weaviate] and its reason is a non-empty list of policy texts. *)
Theorem governance_decision_blocked_by_policy_only {W : Type}
    (store : handler store_call (list object) W)
    (current_state next_state role workflow : string)
    (w : W) (verdict : value) :
  returned (run (collaborators stub_legality store)
              (governance_decision current_state next_state role workflow) w)
    = inr verdict →
  subscript verdict "verdict" = inr (VStr "BLOCKED") →
  ∃ policies,
    policies ≠ []
    ∧ verdict = VDict {[ "verdict" := VStr "BLOCKED";
                         "reason" := VList policies;
                         "authority" := VStr "Weaviate" ]}.
Proof.
  cbn -[check_policy_constraints get_approval_requirement check_process_legality].
  destruct (check_process_legality_valid current_state next_state role)
    as [-> Hflag].
  cbn -[check_policy_constraints get_approval_requirement check_process_legality].
  destruct (returned (run store (check_policy_constraints workflow role) w))
    as [e | policy] eqn:Hpolicy;
    cbn -[check_policy_constraints get_approval_requirement check_process_legality];
    [discriminate |].
  apply check_policy_constraints_contract in Hpolicy
    as (severity & policies & Hseverity & Hpolicies & Hempty).
  rewrite Hseverity.
  cbn -[check_policy_constraints get_approval_requirement check_process_legality].
  destruct (eq_str severity "BLOCK") eqn:Hblock;
    cbn -[check_policy_constraints get_approval_requirement check_process_legality].
  - rewrite Hpolicies. cbn. intros [= <-] _.
    exists policies. split; [| reflexivity].
    intros ->. rewrite Hempty in Hblock by reflexivity. discriminate.
  - rewrite Hflag.
    destruct (eq_str severity "REQUIRE_APPROVAL");
      cbn -[check_policy_constraints get_approval_requirement].
    + destruct (returned (run store (get_approval_requirement _ _ _ _) _));
        cbn; [discriminate |].
      rewrite Hpolicies. cbn. intros [= <-] Hverdict.
      vm_compute in Hverdict. discriminate.
    + intros [= <-] Hverdict. vm_compute in Hverdict. discriminate.
Qed.

(** X18.  When the policy store fails, the request fails with the store's
    exception: the failure passes through the policy evaluator and the
    resolver unchanged, and the approval store is not queried. *)
Theorem governance_decision_policy_store_failure {W : Type}
    (legality : string → string → string → W → result value * W)
    (store : handler store_call (list object) W)
    (current_state next_state role workflow : string)
    (w w1 w2 : W) (process valid : value) (e : exn) :
  legality current_state next_state role w = (inr process, w1) →
  subscript process "valid" = inr valid → truthy valid = true →
  store (fetch_objects "HRPolicy"
           (by_property_equal "domain" "HR"
            &&& by_property_equal "applies_to" workflow
            &&& by_property_contains_any "roles" [role])) w1
    = (inl e, w2) →
  returned (run (collaborators legality store)
              (governance_decision current_state next_state role workflow) w)
    = inl e
  ∧ calls (run (collaborators legality store)
             (governance_decision current_state next_state role workflow) w)
    = [(CallProcessLegality current_state next_state role, inr process);
       (CallPolicyConstraints workflow role, inl e)].
Proof.
  intros Hlegal Hvalid Htruthy Hfetch.
  cbn. rewrite Hlegal. cbn. rewrite Hvalid. cbn. rewrite Htruthy. cbn.
  rewrite Hfetch. cbn. split; reflexivity.
Qed.

(** X19.  A policy that asks for approval with no approval record on file
    gives a NEEDS_APPROVAL verdict whose [approval] says
    [approval_required: False, auto_approve: True]: the verdict and the
    requirement it carries disagree. *)
Theorem governance_decision_needs_approval_none_on_file {W : Type}
    (legality : string → string → string → W → result value * W)
    (store : handler store_call (list object) W)
    (current_state next_state role workflow : string)
    (w w1 w2 w3 : W) (process valid : value) (objects : list object) :
  legality current_state next_state role w = (inr process, w1) →
  subscript process "valid" = inr valid → truthy valid = true →
  store (fetch_objects "HRPolicy"
           (by_property_equal "domain" "HR"
            &&& by_property_equal "applies_to" workflow
            &&& by_property_contains_any "roles" [role])) w1
    = (inr objects, w2) →
  Forall policy_record objects →
  strongest_severity objects = "REQUIRE_APPROVAL" →
  store (fetch_objects "ApprovalPolicy"
           (by_property_equal "domain" "HR"
            &&& by_property_equal "workflow" workflow
            &&& by_property_equal "action" next_state
            &&& by_property_equal "requested_by_role" role)) w2
    = (inr [], w3) →
  returned (run (collaborators legality store)
              (governance_decision current_state next_state role workflow) w)
    = inr (VDict {[ "verdict" := VStr "NEEDS_APPROVAL";
                    "reason" := VList (texts_of objects);
                    "approval" :=
                      VDict {[ "approval_required" := VBool false;
                               "auto_approve" := VBool true ]};
                    "authority" := VStr "GovernanceLayer" ]}).
Proof.
  intros Hlegal Hvalid Htruthy Hpolicy Hrecords Hstrongest Happroval.
  pose proof (check_policy_constraints_returns store workflow role
                w1 w2 objects Hpolicy Hrecords) as Hreturned.
  assert (world (run store (check_policy_constraints workflow role) w1) = w2)
    as Hworld.
  { cbn. rewrite Hpolicy. cbn. destruct objects as [| o rest]; [reflexivity |].
    destruct (collect_policies (o :: rest) ∅ []) as [? | [? ?]]; cbn;
      [reflexivity |].
    repeat case_match; reflexivity. }
  rewrite Hstrongest in Hreturned.
  cbn -[check_policy_constraints get_approval_requirement].
  rewrite Hlegal. cbn -[check_policy_constraints get_approval_requirement].
  rewrite Hvalid. cbn -[check_policy_constraints get_approval_requirement].
  rewrite Htruthy. cbn -[check_policy_constraints get_approval_requirement].
  rewrite Hreturned, Hworld.
  cbn -[check_policy_constraints get_approval_requirement].
  unfold policy_result.
  assert (∀ texts, getitem {[ "severity" := VStr "REQUIRE_APPROVAL";
                             "policies" := VList texts ]} "severity"
                   = inr (VStr "REQUIRE_APPROVAL")) as Hs by reflexivity.
  assert (∀ texts, getitem {[ "severity" := VStr "REQUIRE_APPROVAL";
                             "policies" := VList texts ]} "policies"
                   = inr (VList texts)) as Hp by reflexivity.
  rewrite !Hs, !Hp. cbn. rewrite Happroval. cbn. reflexivity.
Qed.

(** ** weaviate_client.py: one connection at a time *)

(** The values above are these statements seen through what they
    return: same calls, same world, and when a run ends well the global
    left in the store is the one given back there. *)
Lemma session_agrees {W : Type} (h : handler client_call nat W)
    (ops : list client_op) :
  ∀ (_client : option nat) (w : W),
    weaviate_client.log (weaviate_client.exec h (weaviate_client.session ops) _client w)
      = calls (run h (session ops _client) w)
    ∧ weaviate_client.outside
        (weaviate_client.exec h (weaviate_client.session ops) _client w)
      = world (run h (session ops _client) w)
    ∧ ∀ left, returned (run h (session ops _client) w) = inr left →
        weaviate_client.global
          (weaviate_client.exec h (weaviate_client.session ops) _client w)
        = left.
Proof.
  induction ops as [| op rest IH]; intros _client w.
  { cbn. split; [reflexivity |]. split; [reflexivity | congruence]. }
  destruct op, _client as [client |]; cbn.
  - apply IH.
  - destruct (h (connect_to_local true) w) as [[e | client] w1]; cbn.
    + split; [reflexivity |]. split; [reflexivity | discriminate].
    + destruct (IH (Some client) w1) as (-> & -> & Hleft). auto.
  - destruct (h (client_close client) w) as [[e | r] w1]; cbn.
    + split; [reflexivity |]. split; [reflexivity | discriminate].
    + destruct (IH None w1) as (-> & -> & Hleft). auto.
  - apply IH.
Qed.

(** X20.  However [get_client] and [close_client] are interleaved, from any
    state of the global and whatever the connection service answers: a
    connection is only made when none is live, and with the initial
    checks skipped; only the live client is ever closed, and once; a call
    that fails ends the session and leaves the global as it was before
    the call; and the global at the end, however the session ended, is
    the client left live, if any. *)
Theorem session_bracketed {W : Type} (h : handler client_call nat W)
    (ops : list client_op) :
  ∀ (_client : option nat) (w : W),
    bracketed _client
      (weaviate_client.log
         (weaviate_client.exec h (weaviate_client.session ops) _client w))
      (weaviate_client.global
         (weaviate_client.exec h (weaviate_client.session ops) _client w)).
Proof.
  induction ops as [| op rest IH]; intros _client w; [reflexivity |].
  destruct op, _client as [client |]; cbn.
  - apply IH.
  - destruct (h (connect_to_local true) w) as [[e | client] w1]; cbn.
    + auto.
    + split; [reflexivity |]. split; [reflexivity |]. apply IH.
  - destruct (h (client_close client) w) as [[e | r] w1]; cbn.
    + auto.
    + split; [reflexivity |]. apply IH.
  - apply IH.
Qed.

(** A [close()] that raises leaves the client in the global: the next
    [close_client] would close it again. *)
Example close_client_failed_keeps_global :
  let o := weaviate_client.exec stuck_close
             (weaviate_client.session [GetClient; CloseClient; GetClient]) None 4 in
  weaviate_client.answer o = inl (External "WeaviateClosedClientError")
  ∧ weaviate_client.global o = Some 4
  ∧ weaviate_client.log o
    = [(connect_to_local true, inr 4);
       (client_close 4, inl (External "WeaviateClosedClientError"))].
Proof. vm_compute. auto. Qed.

Lemma session_live_silent {W : Type} (h : handler client_call nat W)
    (ops : list client_op) :
  CloseClient ∉ ops →
  ∀ client w, calls (run h (session ops (Some client)) w) = [].
Proof.
  induction ops as [| op rest IH]; intros Hnone client w; [reflexivity |].
  destruct op; [| set_solver]. cbn. apply IH. set_solver.
Qed.

(** X21.  Created once, then reused: as long as nobody closes it, any number
    of [get_client] calls makes at most one connection, and none at all
    when a client is already there. *)
Theorem session_connects_once {W : Type} (h : handler client_call nat W)
    (ops : list client_op) (_client : option nat) (w : W) :
  CloseClient ∉ ops →
  (length (calls (run h (session ops _client) w))
     ≤ if _client is Some _ then 0 else 1)%nat.
Proof.
  intros Hnone. destruct _client as [client |].
  - rewrite session_live_silent by assumption. cbn. lia.
  - destruct ops as [| op rest]; [cbn; lia |].
    destruct op; [| set_solver]. cbn.
    destruct (h (connect_to_local true) w) as [[e | client] w1]; cbn; [lia |].
    rewrite session_live_silent by set_solver. cbn. lia.
Qed.

(** ** governance_node.py: the resolver inside the workflow state *)

(** On a state with the four request fields, the node is the resolver
    followed by one assignment. *)
Lemma governance_node_run {W : Type} (h : handler collaborator_call value W)
    (state : gmap string value)
    (current_state next_state role workflow : string) (w : W) :
  state !! "current_state" = Some (VStr current_state) →
  state !! "next_state" = Some (VStr next_state) →
  state !! "role" = Some (VStr role) →
  state !! "workflow" = Some (VStr workflow) →
  run h (governance_node state) w
  = let o := run h (governance_decision current_state next_state role workflow) w in
    Outcome
      (match returned o with
       | inl e => inl e
       | inr decision => inr (<["governance_verdict" := decision]> state)
       end)
      (world o) (calls o).
Proof.
  intros H1 H2 H3 H4. unfold governance_node, getitem.
  rewrite H1, H2, H3, H4.
  cbn -[governance_decision]. rewrite run_bind.
  destruct (run h (governance_decision _ _ _ _) w) as [[e | decision] w1 log];
    cbn; [reflexivity |].
  by rewrite app_nil_r.
Qed.

(** A state the node returns from had the four fields, and what comes
    back is that state with the resolver's verdict put in. *)
Lemma governance_node_inv {W : Type} (h : handler collaborator_call value W)
    (state out : gmap string value) (w : W) :
  returned (run h (governance_node state) w) = inr out →
  ∃ current_state next_state role workflow decision,
    state !! "current_state" = Some (VStr current_state)
    ∧ state !! "next_state" = Some (VStr next_state)
    ∧ state !! "role" = Some (VStr role)
    ∧ state !! "workflow" = Some (VStr workflow)
    ∧ returned (run h (governance_decision current_state next_state role workflow) w)
      = inr decision
    ∧ out = <["governance_verdict" := decision]> state.
Proof.
  destruct (state !! "current_state") as [v1 |] eqn:H1;
    [| unfold governance_node, getitem; rewrite H1; discriminate].
  destruct (state !! "next_state") as [v2 |] eqn:H2;
    [| unfold governance_node, getitem; rewrite H1, H2; discriminate].
  destruct (state !! "role") as [v3 |] eqn:H3;
    [| unfold governance_node, getitem; rewrite H1, H2, H3; discriminate].
  destruct (state !! "workflow") as [v4 |] eqn:H4;
    [| unfold governance_node, getitem; rewrite H1, H2, H3, H4; discriminate].
  destruct v1 as [| | | current_state | |];
    try (unfold governance_node, getitem; rewrite H1, H2, H3, H4; discriminate).
  destruct v2 as [| | | next_state | |];
    try (unfold governance_node, getitem; rewrite H1, H2, H3, H4; discriminate).
  destruct v3 as [| | | role | |];
    try (unfold governance_node, getitem; rewrite H1, H2, H3, H4; discriminate).
  destruct v4 as [| | | workflow | |];
    try (unfold governance_node, getitem; rewrite H1, H2, H3, H4; discriminate).
  rewrite (governance_node_run h state current_state next_state role workflow)
    by assumption.
  cbn -[governance_decision].
  destruct (returned (run h (governance_decision _ _ _ _) w))
    as [e | decision] eqn:Hrun; [discriminate |].
  intros [= <-].
  exists current_state, next_state, role, workflow, decision. auto 10.
Qed.

(** X22.  A state that lacks a request field is refused with a [KeyError] for
    the first one missing, in the order [current_state], [next_state],
    [role], [workflow], before any collaborator is called. *)
Theorem governance_node_missing_field {W : Type}
    (h : handler collaborator_call value W)
    (state : gmap string value) (w : W) (key : string) :
  first_missing ["current_state"; "next_state"; "role"; "workflow"] state
    = Some key →
  returned (run h (governance_node state) w) = inl (KeyError key)
  ∧ calls (run h (governance_node state) w) = []
  ∧ world (run h (governance_node state) w) = w.
Proof.
  unfold governance_node, getitem. cbn -[governance_decision].
  destruct (state !! "current_state"); cbn -[governance_decision];
    [| intros [= <-]; auto].
  destruct (state !! "next_state"); cbn -[governance_decision];
    [| intros [= <-]; auto].
  destruct (state !! "role"); cbn -[governance_decision];
    [| intros [= <-]; auto].
  destruct (state !! "workflow"); cbn -[governance_decision];
    [| intros [= <-]; auto].
  discriminate.
Qed.

(** X23.  On a request of four strings the node calls the collaborators just
    as the resolver does; a verdict is stored under [governance_verdict],
    over any verdict that was there, and every other key of the state is
    kept; a failure of the resolver is the node's failure. *)
Theorem governance_node_frame {W : Type}
    (h : handler collaborator_call value W)
    (state : gmap string value)
    (current_state next_state role workflow : string) (w : W) :
  state !! "current_state" = Some (VStr current_state) →
  state !! "next_state" = Some (VStr next_state) →
  state !! "role" = Some (VStr role) →
  state !! "workflow" = Some (VStr workflow) →
  calls (run h (governance_node state) w)
    = calls (run h (governance_decision current_state next_state role workflow) w)
  ∧ (∀ e,
       returned (run h (governance_decision current_state next_state role workflow) w)
         = inl e →
       returned (run h (governance_node state) w) = inl e)
  ∧ (∀ decision,
       returned (run h (governance_decision current_state next_state role workflow) w)
         = inr decision →
       ∃ out,
         returned (run h (governance_node state) w) = inr out
         ∧ out !! "governance_verdict" = Some decision
         ∧ ∀ key, key ≠ "governance_verdict" → out !! key = state !! key).
Proof.
  intros H1 H2 H3 H4.
  rewrite (governance_node_run h state current_state next_state role workflow)
    by assumption.
  cbn -[governance_decision]. split; [reflexivity |]. split.
  - intros e ->. reflexivity.
  - intros decision ->. eexists. split; [reflexivity |].
    split; [apply lookup_insert_eq |].
    intros key Hkey. by apply lookup_insert_ne.
Qed.

(** X24.  Running the node again on the state it returned changes nothing,
    when the collaborators answer the same wherever they are asked: the
    verdict it wrote is not among the fields it reads. *)
Theorem governance_node_idempotent {W : Type}
    (h : handler collaborator_call value W)
    (state out : gmap string value) (w w' : W) :
  same_answers h h →
  returned (run h (governance_node state) w) = inr out →
  returned (run h (governance_node out) w') = inr out.
Proof.
  intros Hsame Hrun.
  apply governance_node_inv in Hrun
    as (current_state & next_state & role & workflow & decision
        & H1 & H2 & H3 & H4 & Hdecision & ->).
  rewrite (governance_node_run h _ current_state next_state role workflow)
    by (rewrite lookup_insert_ne by discriminate; assumption).
  cbn -[governance_decision].
  destruct (run_same_answers h h
              (governance_decision current_state next_state role workflow)
              Hsame w' w) as [-> _].
  rewrite Hdecision. by rewrite insert_insert_eq.
Qed.

(** * The further properties at work *)

Lemma governance_decision_verdict_shape_witness :
  ∃ d : gmap string value,
    allowed_verdict = VDict d
    ∧ is_Some (d !! "reason")
    ∧ ((d !! "verdict" = Some (VStr "BLOCKED")
        ∧ d !! "approval" = None
        ∧ (d !! "authority" = Some (VStr "NebulaGraph")
           ∨ d !! "authority" = Some (VStr "Weaviate")))
       ∨ (d !! "verdict" = Some (VStr "NEEDS_APPROVAL")
          ∧ is_Some (d !! "approval")
          ∧ d !! "authority" = Some (VStr "GovernanceLayer"))
       ∨ (d !! "verdict" = Some (VStr "ALLOWED")
          ∧ d !! "approval" = None
          ∧ d !! "reason" = Some (VStr "Process and policy compliant")
          ∧ d !! "authority" = Some (VStr "GovernanceLayer"))).
Proof.
  apply (governance_decision_verdict_shape
           (fixed (inr offer_legal) (inr (policy_result "ALLOW" [])) not_consulted)
           "OfferMade" "OfferAccepted" "HR_EXECUTIVE" "Hiring" 0).
  reflexivity.
Defined.

Lemma governance_decision_allowed_only_if_witness :
  let h := fixed (inr offer_legal) (inr (policy_result "ALLOW" [])) not_consulted in
  ∃ process policy valid severity flag,
    calls (run h offer_request 0)
      = [(CallProcessLegality "OfferMade" "OfferAccepted" "HR_EXECUTIVE",
          inr process);
         (CallPolicyConstraints "Hiring" "HR_EXECUTIVE", inr policy)]
    ∧ subscript process "valid" = inr valid ∧ truthy valid = true
    ∧ subscript policy "severity" = inr severity
    ∧ eq_str severity "BLOCK" = false
    ∧ eq_str severity "REQUIRE_APPROVAL" = false
    ∧ subscript process "approval_required" = inr flag
    ∧ truthy flag = false.
Proof.
  intros h.
  apply (governance_decision_allowed_only_if h
           "OfferMade" "OfferAccepted" "HR_EXECUTIVE" "Hiring" 0 allowed_verdict);
    reflexivity.
Defined.

Lemma governance_decision_needs_approval_only_if_witness :
  let h := fixed (inr offer_legal)
             (inr (policy_result "REQUIRE_APPROVAL" [VStr "Offers need sign-off"]))
             (inr no_approval) in
  ∃ process policy approval valid severity policies,
    calls (run h offer_request 0)
      = [(CallProcessLegality "OfferMade" "OfferAccepted" "HR_EXECUTIVE",
          inr process);
         (CallPolicyConstraints "Hiring" "HR_EXECUTIVE", inr policy);
         (CallApprovalRequirement "HR" "Hiring" "OfferAccepted" "HR_EXECUTIVE",
          inr approval)]
    ∧ sign_off_verdict
      = VDict {[ "verdict" := VStr "NEEDS_APPROVAL";
                 "reason" := policies;
                 "approval" := approval;
                 "authority" := VStr "GovernanceLayer" ]}
    ∧ subscript policy "policies" = inr policies
    ∧ subscript process "valid" = inr valid ∧ truthy valid = true
    ∧ subscript policy "severity" = inr severity
    ∧ eq_str severity "BLOCK" = false
    ∧ (eq_str severity "REQUIRE_APPROVAL" = true
       ∨ ∃ flag, subscript process "approval_required" = inr flag
                 ∧ truthy flag = true).
Proof.
  intros h.
  apply (governance_decision_needs_approval_only_if h
           "OfferMade" "OfferAccepted" "HR_EXECUTIVE" "Hiring" 0 sign_off_verdict);
    reflexivity.
Defined.

Lemma governance_decision_blocked_only_if_witness :
  let h := fixed (inr offer_legal)
             (inr (policy_result "BLOCK" [VStr "Hiring freeze"]))
             not_consulted in
  (∃ process valid reason,
     calls (run h offer_request 0)
       = [(CallProcessLegality "OfferMade" "OfferAccepted" "HR_EXECUTIVE",
           inr process)]
     ∧ subscript process "valid" = inr valid ∧ truthy valid = false
     ∧ subscript process "reason" = inr reason
     ∧ freeze_verdict = VDict {[ "verdict" := VStr "BLOCKED";
                                 "reason" := reason;
                                 "authority" := VStr "NebulaGraph" ]})
  ∨ (∃ process policy valid severity policies,
       calls (run h offer_request 0)
         = [(CallProcessLegality "OfferMade" "OfferAccepted" "HR_EXECUTIVE",
             inr process);
            (CallPolicyConstraints "Hiring" "HR_EXECUTIVE", inr policy)]
       ∧ subscript process "valid" = inr valid ∧ truthy valid = true
       ∧ subscript policy "severity" = inr severity
       ∧ eq_str severity "BLOCK" = true
       ∧ subscript policy "policies" = inr policies
       ∧ freeze_verdict = VDict {[ "verdict" := VStr "BLOCKED";
                                   "reason" := policies;
                                   "authority" := VStr "Weaviate" ]}).
Proof.
  intros h.
  apply (governance_decision_blocked_only_if h
           "OfferMade" "OfferAccepted" "HR_EXECUTIVE" "Hiring" 0 freeze_verdict);
    reflexivity.
Defined.

Lemma governance_decision_unknown_severity_witness :
  returned (run (fixed (inr offer_legal)
                   (inr (policy_result "block" [VStr "Hiring freeze"]))
                   not_consulted)
              offer_request 0)
    = inr allowed_verdict.
Proof.
  apply (governance_decision_unknown_severity _
           "OfferMade" "OfferAccepted" "HR_EXECUTIVE" "Hiring" 0 1 2
           offer_legal (policy_result "block" [VStr "Hiring freeze"])
           (VBool true) (VStr "block") (VBool false));
    try reflexivity; discriminate.
Defined.

Lemma governance_decision_falsy_valid_witness :
  let process :=
    VDict {[ "valid" := VNone; "reason" := VStr "Unknown transition" ]} in
  let h := fixed (inr process) not_consulted not_consulted in
  returned (run h offer_request 0)
    = inr (VDict {[ "verdict" := VStr "BLOCKED";
                    "reason" := VStr "Unknown transition";
                    "authority" := VStr "NebulaGraph" ]})
  ∧ calls (run h offer_request 0)
    = [(CallProcessLegality "OfferMade" "OfferAccepted" "HR_EXECUTIVE",
        inr process)].
Proof.
  intros process h.
  apply (governance_decision_falsy_valid h
           "OfferMade" "OfferAccepted" "HR_EXECUTIVE" "Hiring" 0 1
           process VNone (VStr "Unknown transition")); reflexivity.
Defined.

Lemma governance_decision_unreadable_legality_witness :
  let process := VDict {[ "approval_required" := VBool false ]} in
  let h := fixed (inr process) not_consulted not_consulted in
  returned (run h offer_request 0) = inl (KeyError "valid")
  ∧ calls (run h offer_request 0)
    = [(CallProcessLegality "OfferMade" "OfferAccepted" "HR_EXECUTIVE",
        inr process)].
Proof.
  intros process h.
  apply (governance_decision_unreadable_legality h
           "OfferMade" "OfferAccepted" "HR_EXECUTIVE" "Hiring" 0 1
           process (KeyError "valid")).
  - reflexivity.
  - left. reflexivity.
Defined.

Lemma governance_decision_policies_read_last_witness :
  let policy := VDict {[ "severity" := VStr "REQUIRE_APPROVAL" ]} in
  let h := fixed (inr offer_legal) (inr policy) (inr no_approval) in
  returned (run h offer_request 0) = inl (KeyError "policies")
  ∧ world (run h offer_request 0) = 3
  ∧ calls (run h offer_request 0)
    = [(CallProcessLegality "OfferMade" "OfferAccepted" "HR_EXECUTIVE",
        inr offer_legal);
       (CallPolicyConstraints "Hiring" "HR_EXECUTIVE", inr policy);
       (CallApprovalRequirement "HR" "Hiring" "OfferAccepted" "HR_EXECUTIVE",
        inr no_approval)].
Proof.
  intros policy h.
  apply (governance_decision_policies_read_last h
           "OfferMade" "OfferAccepted" "HR_EXECUTIVE" "Hiring" 0 1 2 3
           offer_legal policy (VBool true) no_approval (KeyError "policies"));
    reflexivity.
Defined.

Lemma check_policy_constraints_all_or_nothing_witness :
  let objects := [policy_block; policy_without_text] in
  (Forall policy_record objects
   ∧ returned (run (canned objects)
                 (check_policy_constraints "Hiring" "HR_EXECUTIVE") tt)
     = inr (policy_result (strongest_severity objects) (texts_of objects)))
  ∨ (Exists (λ o, ¬ policy_record o) objects
     ∧ ∃ e, returned (run (canned objects)
                        (check_policy_constraints "Hiring" "HR_EXECUTIVE") tt)
              = inl e
            ∧ (e = KeyError "severity" ∨ e = KeyError "policy_text"
               ∨ ∃ what, e = TypeError what)).
Proof.
  intros objects.
  apply (check_policy_constraints_all_or_nothing (canned objects)
           "Hiring" "HR_EXECUTIVE" tt tt objects).
  reflexivity.
Defined.

Lemma check_policy_constraints_permutation_witness :
  ∃ severity policies1 policies2,
    returned (run (canned [policy_allow; policy_block])
                (check_policy_constraints "Hiring" "HR_EXECUTIVE") tt)
      = inr (policy_result severity policies1)
    ∧ returned (run (canned [policy_block; policy_allow])
                  (check_policy_constraints "Hiring" "HR_EXECUTIVE") tt)
      = inr (policy_result severity policies2)
    ∧ policies1 ≡ₚ policies2.
Proof.
  apply (check_policy_constraints_permutation
           (canned [policy_allow; policy_block])
           (canned [policy_block; policy_allow])
           "Hiring" "HR_EXECUTIVE" tt tt tt tt
           [policy_allow; policy_block] [policy_block; policy_allow]).
  - reflexivity.
  - reflexivity.
  - apply perm_swap.
  - apply Forall_cons. split.
    + exists (VStr "ALLOW"), (HStr "ALLOW"), (VStr "Offers are logged").
      split; [reflexivity | split; reflexivity].
    + apply Forall_cons. split; [| constructor].
      exists (VStr "BLOCK"), (HStr "BLOCK"), (VStr "Hiring freeze").
      split; [reflexivity | split; reflexivity].
Defined.

Lemma check_policy_constraints_monotone_witness :
  ∃ severity1 severity2 policies1 policies2,
    returned (run (canned [policy_require_approval])
                (check_policy_constraints "Hiring" "HR_EXECUTIVE") tt)
      = inr (policy_result severity1 policies1)
    ∧ returned (run (canned [policy_require_approval; policy_allow])
                  (check_policy_constraints "Hiring" "HR_EXECUTIVE") tt)
      = inr (policy_result severity2 policies2)
    ∧ (severity_rank severity1 ≤ severity_rank severity2)%nat
    ∧ policies1 `prefix_of` policies2.
Proof.
  apply (check_policy_constraints_monotone
           (canned [policy_require_approval])
           (canned [policy_require_approval; policy_allow])
           "Hiring" "HR_EXECUTIVE" tt tt tt tt
           [policy_require_approval] [policy_allow]).
  - reflexivity.
  - reflexivity.
  - apply Forall_cons. split.
    + exists (VStr "REQUIRE_APPROVAL"), (HStr "REQUIRE_APPROVAL"),
        (VStr "Offers need sign-off").
      split; [reflexivity | split; reflexivity].
    + apply Forall_cons. split; [| constructor].
      exists (VStr "ALLOW"), (HStr "ALLOW"), (VStr "Offers are logged").
      split; [reflexivity | split; reflexivity].
Defined.

Lemma check_policy_constraints_result_shape_witness :
  ∃ severity policies,
    policy_result "BLOCK" [VStr "Hiring freeze"; VStr "Hiring freeze"]
      = policy_result severity policies
    ∧ (severity = "BLOCK" ∨ severity = "REQUIRE_APPROVAL" ∨ severity = "ALLOW")
    ∧ length policies = length [policy_block; policy_block].
Proof.
  apply (check_policy_constraints_result_shape
           (canned [policy_block; policy_block])
           "Hiring" "HR_EXECUTIVE" tt tt); reflexivity.
Defined.

Lemma get_approval_requirement_ignores_rest_witness :
  returned (run (canned [hiring_offer_approval])
              (get_approval_requirement "HR" "Hiring" "OfferAccepted" "HR_EXECUTIVE") tt)
  = returned (run (canned [hiring_offer_approval; approval_without_escalation])
                (get_approval_requirement "HR" "Hiring" "OfferAccepted" "HR_EXECUTIVE") tt).
Proof.
  apply (get_approval_requirement_ignores_rest
           (canned [hiring_offer_approval])
           (canned [hiring_offer_approval; approval_without_escalation])
           "HR" "Hiring" "OfferAccepted" "HR_EXECUTIVE" tt tt tt tt
           hiring_offer_approval [] [approval_without_escalation]);
    reflexivity.
Defined.

Lemma get_approval_requirement_missing_field_witness :
  returned (run (canned [approval_without_escalation; hiring_offer_approval])
              (get_approval_requirement "HR" "Hiring" "OfferAccepted" "HR_EXECUTIVE") tt)
    = inl (KeyError "escalation_role").
Proof.
  apply (get_approval_requirement_missing_field
           (canned [approval_without_escalation; hiring_offer_approval])
           "HR" "Hiring" "OfferAccepted" "HR_EXECUTIVE" tt tt
           approval_without_escalation [hiring_offer_approval]);
    reflexivity.
Defined.

Lemma get_approval_requirement_keys_witness :
  ∃ d : gmap string value,
    hiring_offer_requirement = VDict d
    ∧ d !! "approval_required" = Some (VBool true)
    ∧ dom d = {[ "approval_required"; "approver_roles"; "approval_level";
                 "auto_approve"; "escalation_role" ]}.
Proof.
  apply (get_approval_requirement_keys (canned [hiring_offer_approval])
           "HR" "Hiring" "OfferAccepted" "HR_EXECUTIVE" tt tt
           [hiring_offer_approval]); reflexivity.
Defined.

Lemma governance_decision_blocked_by_policy_only_witness :
  ∃ policies,
    policies ≠ []
    ∧ freeze_verdict = VDict {[ "verdict" := VStr "BLOCKED";
                                "reason" := VList policies;
                                "authority" := VStr "Weaviate" ]}.
Proof.
  apply (governance_decision_blocked_by_policy_only
           (scripted (inr [policy_block]) (inr []))
           "OfferMade" "OfferAccepted" "HR_EXECUTIVE" "Hiring" 0);
    reflexivity.
Defined.

Lemma governance_decision_policy_store_failure_witness :
  let h := collaborators stub_legality
             (scripted (inl (External "StoreUnavailable")) (inr [])) in
  returned (run h offer_request 0) = inl (External "StoreUnavailable")
  ∧ calls (run h offer_request 0)
    = [(CallProcessLegality "OfferMade" "OfferAccepted" "HR_EXECUTIVE",
        inr (check_process_legality "OfferMade" "OfferAccepted" "HR_EXECUTIVE"));
       (CallPolicyConstraints "Hiring" "HR_EXECUTIVE",
        inl (External "StoreUnavailable"))].
Proof.
  intros h.
  apply (governance_decision_policy_store_failure stub_legality
           (scripted (inl (External "StoreUnavailable")) (inr []))
           "OfferMade" "OfferAccepted" "HR_EXECUTIVE" "Hiring" 0 0 1
           (check_process_legality "OfferMade" "OfferAccepted" "HR_EXECUTIVE")
           (VBool true) (External "StoreUnavailable")); reflexivity.
Defined.

Lemma governance_decision_needs_approval_none_on_file_witness :
  returned (run (collaborators stub_legality
                   (scripted (inr [policy_require_approval]) (inr [])))
              offer_request 0)
    = inr sign_off_verdict.
Proof.
  apply (governance_decision_needs_approval_none_on_file stub_legality
           (scripted (inr [policy_require_approval]) (inr []))
           "OfferMade" "OfferAccepted" "HR_EXECUTIVE" "Hiring" 0 0 1 2
           (check_process_legality "OfferMade" "OfferAccepted" "HR_EXECUTIVE")
           (VBool true) [policy_require_approval]); try reflexivity.
  apply Forall_cons. split; [| constructor].
  exists (VStr "REQUIRE_APPROVAL"), (HStr "REQUIRE_APPROVAL"),
    (VStr "Offers need sign-off").
  split; [reflexivity | split; reflexivity].
Defined.

Lemma session_connects_once_witness :
  (length (calls (run numbering
                    (session [GetClient; GetClient; GetClient] None) 7))
     ≤ 1)%nat.
Proof.
  apply (session_connects_once numbering [GetClient; GetClient; GetClient]
           None 7).
  intros Hin. repeat (apply elem_of_cons in Hin as [Hin | Hin];
                      [discriminate |]).
  inversion Hin.
Defined.

Lemma governance_node_missing_field_witness :
  let state : gmap string value :=
    {[ "current_state" := VStr "OfferMade"; "workflow" := VStr "Hiring" ]} in
  let h := fixed not_consulted not_consulted not_consulted in
  returned (run h (governance_node state) 0) = inl (KeyError "next_state")
  ∧ calls (run h (governance_node state) 0) = []
  ∧ world (run h (governance_node state) 0) = 0.
Proof.
  intros state h.
  apply (governance_node_missing_field h state 0 "next_state").
  reflexivity.
Defined.

Lemma governance_node_frame_witness :
  let h := fixed (inr offer_legal) (inr (policy_result "ALLOW" [])) not_consulted in
  calls (run h (governance_node offer_state) 0) = calls (run h offer_request 0)
  ∧ (∀ e, returned (run h offer_request 0) = inl e →
          returned (run h (governance_node offer_state) 0) = inl e)
  ∧ (∀ decision,
       returned (run h offer_request 0) = inr decision →
       ∃ out,
         returned (run h (governance_node offer_state) 0) = inr out
         ∧ out !! "governance_verdict" = Some decision
         ∧ ∀ key, key ≠ "governance_verdict" → out !! key = offer_state !! key).
Proof.
  intros h.
  apply (governance_node_frame h offer_state
           "OfferMade" "OfferAccepted" "HR_EXECUTIVE" "Hiring" 0);
    reflexivity.
Defined.

Lemma governance_node_idempotent_witness :
  let h := fixed (inr offer_legal) (inr (policy_result "ALLOW" [])) not_consulted in
  let out := <["governance_verdict" := allowed_verdict]> offer_state in
  returned (run h (governance_node out) 2) = inr out.
Proof.
  intros h out.
  apply (governance_node_idempotent h offer_state out 0 2).
  - intros c w1 w2. destruct c; reflexivity.
  - reflexivity.
Defined.
